(** * Segmentation commands of the viewer: a shallow embedding

    The command module of the cornerstone segmentation extension
    (generateSegmentation, downloadSegmentation, downloadSegmentationPdf,
    storeSegmentation, downloadRTSS, setBrushSize, setThresholdRange) is
    glue code over services and third-party libraries.  The embedding keeps
    the control flow of every action as it is written and takes the
    services and libraries it calls as an environment record [Env]; the
    observable interactions of an action are collected, in order, in a
    trace of [Event]s. *)

From Stdlib Require Import ZArith String Ascii List.
From Stdlib Require Import Floats.PrimFloat.
From stdpp Require Import base option list gmap strings pretty.

Local Open Scope Z_scope.
Local Open Scope string_scope.
Local Open Scope list_scope.

(** ** JavaScript values and idioms used by the source *)

(** What a [throw] carries.  [TypeError] is what the engine raises on a
    property access or a destructuring of [undefined]; [Error] is
    [new Error(msg)]. *)
Inductive JsError :=
  | TypeError (what : string)
  | Error (msg : string).

Inductive result (A : Type) :=
  | Ok (a : A)
  | Throw (e : JsError).
Arguments Ok {A} a.
Arguments Throw {A} e.

(** [a || d] on a possibly undefined string: the empty string is falsy. *)
Definition str_or (a : option string) (d : string) : string :=
  match a with
  | Some s => if decide (s = EmptyString) then d else s
  | None => d
  end.

(** A template literal [`${a}`] over a possibly undefined string. *)
Definition template (a : option string) : string :=
  match a with
  | Some s => s
  | None => "undefined"
  end.

(** [lines.join('\n')] *)
Definition newline : string := String (ascii_of_nat 10) EmptyString.

Fixpoint join_lines (ls : list string) : string :=
  match ls with
  | [] => EmptyString
  | [l] => l
  | l :: rest => l +:+ newline +:+ join_lines rest
  end.

(** A JavaScript [Set] of numbers keeps its members in insertion order and
    [add] of a member already present changes nothing; [Array.from(set)]
    lists the members in that order. *)
Definition Set_add (s : list Z) (x : Z) : list Z :=
  if decide (x ∈ s) then s else s ++ [x].

(** [new Set(array)] *)
Definition Set_of_array (a : list Z) : list Z := fold_left Set_add a [].

(** ** Images and label maps *)

Record Image := {
  getPixelData : list Z;
  rows : Z;
  columns : Z;
  referencedImageId : option string;
}.

Record Labelmap2D := {
  lm2_segmentsOnLabelmap : list Z;
  lm2_pixelData : list Z;
  lm2_rows : Z;
  lm2_columns : Z;
}.

(** The body of the inner loop, lines 139-144: one step per pixel. *)
Definition scan_step (segmentsOnLabelmap : list Z) (segment : Z) : list Z :=
  if decide (segment ≠ 0) then Set_add segmentsOnLabelmap segment
  else segmentsOnLabelmap.

(** The inner loop: [for (let i = 0; i < pixelData.length; i++)]. *)
Definition scan_pixels (pixelData : list Z) : list Z :=
  fold_left scan_step pixelData [].

(** The body of the outer loop, lines 134-151. *)
Definition labelmap2D_of (segImage : Image) : Labelmap2D :=
  let pixelData := getPixelData segImage in
  {| lm2_segmentsOnLabelmap := scan_pixels pixelData;
     lm2_pixelData := pixelData;
     lm2_rows := rows segImage;
     lm2_columns := columns segImage |}.

(** [labelmaps2D[z++] = ...] for each image in turn fills the array in
    order. *)
Definition build_labelmaps2D (segImages : list Image) : list Labelmap2D :=
  map labelmap2D_of segImages.

(** Lines 154-157: [Array.from(new Set(allSegmentsOnLabelmap.flat()))]. *)
Definition volume_segments (labelmaps2D : list Labelmap2D) : list Z :=
  let allSegmentsOnLabelmap := map lm2_segmentsOnLabelmap labelmaps2D in
  Set_of_array (concat allSegmentsOnLabelmap).

(** ** Segmentations, as the two registries hold them *)

(** An entry of the cornerstone tools segmentation state. *)
Record LabelmapData := { imageIds : option (list string) }.
Record RepresentationData := { Labelmap : option LabelmapData }.
Record CsSegmentation := { representationData : option RepresentationData }.

(** A segment of an entry of the segmentation service. *)
Record Segment := {
  seg_label : string;
  segmentIndex : Z;
  algorithmType : option string;
  algorithmName : option string;
}.

(** An entry of the segmentation service.  [segments] is the list
    [Object.entries] yields: the keys of the object, in its order, each
    with its (possibly null) segment. *)
Record OhifSegmentation := {
  label : option string;
  segments : list (string * option Segment);
}.

Record Representation := { viewportId : string }.

Record CodeSequence := {
  CodeValue : string;
  CodingSchemeDesignator : string;
  CodeMeaning : string;
}.

Record SegmentMetadata := {
  SegmentNumber : string;
  SegmentLabel : string;
  SegmentAlgorithmType : string;
  SegmentAlgorithmName : string;
  RecommendedDisplayCIELabValue : list float;
  SegmentedPropertyCategoryCodeSequence : CodeSequence;
  SegmentedPropertyTypeCodeSequence : CodeSequence;
}.

(** [metadata] starts as [[]] and is filled by [metadata[segmentIndex] = ...]
    with the keys of the segments object: a map from key to entry. *)
Record Labelmap3D := {
  lm3_segmentsOnLabelmap : list Z;
  lm3_metadata : gmap string SegmentMetadata;
  lm3_labelmaps2D : list Labelmap2D;
}.

Record Options := { SeriesDescription : option string }.

(** ** What the adapters and the browser hand back *)

Record Dataset := {
  ds_body : string;
  wadoRoot : option string;
}.

(** An entry of the metadata array of the adapter's result, as the PDF
    export reads it. *)
Record SegmentInfo := {
  info_SegmentNumber : string;
  info_SegmentLabel : string;
}.

Record GeneratedSegmentation := {
  dataset : option Dataset;
  metadata : option (list SegmentInfo);
}.

Record Canvas := {
  width : Z;
  height : Z;
  toDataURL_png : string;
}.

Record Rgb := { red : Z; green : Z; blue : Z }.

Inductive DrawOp :=
  | DrawImage (png : string) (x y w h : Z)
  | DrawRectangle (x y w h : Z) (color : Rgb) (opacity : float)
  | DrawText (text : string) (x y size : Z) (color : Rgb) (lineHeight : Z).

Record PdfPage := {
  page_width : Z;
  page_height : Z;
  page_ops : list DrawOp;
}.

(** A PDF document under construction: its pages and the images embedded
    in it, each in the order of the calls that made them. *)
Record PdfDoc := {
  doc_pages : list PdfPage;
  doc_images : list string;
}.

Inductive Blob :=
  | PdfBlob (pdfBytes : PdfDoc)
  | DicomBlob (rtss : string).

Record Link := {
  link_download : string;
  link_href : Blob;
}.

Record DataSource := {
  source_name : string;
  store_dicom : Dataset → option JsError;
  config_wadoRoot : option string;
}.

(** What stands where the action expects a data source: a data source
    object, an array of data sources (the extension manager keeps its data
    sources in arrays; an array has no [store]), or [undefined]. *)
Inductive DataSourceRef :=
  | SourceObject (source : DataSource)
  | SourceArray (sources : list DataSource)
  | NoSource.

Record PromptResponse := {
  prompt_value : option string;
  prompt_dataSourceName : option string;
  prompt_action : Z;
}.

Inductive JsValue :=
  | VNumber (n : float)
  | VString (s : string).

(** ** The environment: services and libraries the actions call

    A field of type [... → option JsError] tells whether the call throws
    ([Some e]) or goes through ([None]); what a call that goes through does
    is written in the action that makes it. *)
Record Env := {
  (* cornerstoneToolsSegmentation.state.getSegmentation *)
  cs_getSegmentation : string → option CsSegmentation;
  (* cache.getImage *)
  cache_getImage : option string → result (option Image);
  (* segmentationService *)
  svc_getSegmentation : string → option OhifSegmentation;
  svc_getRepresentationsForSegmentation : string → list Representation;
  svc_getSegmentColor : string → string → Z → result (list float);
  (* dcmjs.data.Colors.rgb2DICOMLAB, Math.round *)
  rgb2DICOMLAB : list float → list float;
  Math_round : float → float;
  (* adaptersSEG.Cornerstone3D.Segmentation.generateSegmentation *)
  adapter_generateSegmentation :
    list (option Image) → Labelmap3D → Options →
    result (option GeneratedSegmentation);
  (* adaptersRT.Cornerstone3D.RTSS.generateRTSSFromSegmentations *)
  adapter_generateRTSS : option OhifSegmentation → result string;
  (* helpers.downloadDICOMData *)
  downloadDICOMData_throws : option Dataset → string → option JsError;
  (* dcmjs.data.datasetToBlob, URL.createObjectURL, window.location.assign *)
  datasetToBlob_throws : string → option JsError;
  createObjectURL_throws : Blob → option JsError;
  location_assign_throws : Blob → option JsError;
  (* viewportGridService.getActiveViewportId, document.querySelector,
     html2canvas *)
  getActiveViewportId : string;
  querySelector : string → option string;
  html2canvas : string → result Canvas;
  (* pdf-lib: PDFDocument.create, embedPng, save *)
  pdf_create_throws : option JsError;
  pdf_embedPng_throws : string → option JsError;
  pdf_save_throws : PdfDoc → option JsError;
  (* extensionManager, createReportDialogPrompt, PROMPT_RESPONSES *)
  getActiveDataSource : DataSourceRef;
  getDataSources : string → option (list DataSource);
  createReportDialogPrompt : result PromptResponse;
  CREATE_REPORT : Z;
  (* toolGroupService *)
  getToolGroupIds : option (list string);
  getToolGroup : string → option string;
  (* Number(value) on a string *)
  Number_of_string : string → float;
}.

(** ** Events and the monad of the actions *)

Inductive Event :=
  | ConsoleError (msg : string) (e : JsError)
  | ConsoleWarn (e : JsError)
  | ConsoleDebug (msg : string) (e : JsError)
  | EncodeSegmentation (referencedImages : list (option Image))
      (labelmap3D : Labelmap3D) (options : Options)
  | EncodeRTSS (segmentations : option OhifSegmentation)
  | DownloadDICOMData (ds : option Dataset) (filename : string)
  | CreateObjectURL (b : Blob)
  | AppendChild (l : Link)
  | Click (l : Link)
  | RemoveChild (l : Link)
  | SetTimeoutRevoke (url : Blob) (ms : Z)
  | LocationAssign (url : Blob)
  | ShowReportDialog (title : string)
  | StoreDicom (source : string) (ds : Dataset)
  | AddInstances (instances : list Dataset) (madeInClient : bool)
  | SetBrushSizeForToolGroup (toolGroupId : string) (brushSize : float)
      (toolName : option string)
  | SetToolConfiguration (toolGroup : string) (toolName : string)
      (range : list float).

(** An action runs from the trace so far to an outcome and the trace after
    it; what was emitted before a throw stays. *)
Definition M (A : Type) : Type := list Event → result A * list Event.

Definition ret {A} (a : A) : M A := fun w => (Ok a, w).
Definition throw {A} (e : JsError) : M A := fun w => (Throw e, w).
Definition bind {A B} (m : M A) (k : A → M B) : M B :=
  fun w =>
    match m w with
    | (Ok a, w') => k a w'
    | (Throw e, w') => (Throw e, w')
    end.
Definition emit (ev : Event) : M unit := fun w => (Ok tt, w ++ [ev]).

(** [try { m } catch (error) { h error }] *)
Definition try_catch {A} (m : M A) (h : JsError → M A) : M A :=
  fun w =>
    match m w with
    | (Ok a, w') => (Ok a, w')
    | (Throw e, w') => h e w'
    end.

Definition lift {A} (r : result A) : M A := fun w => (r, w).

(** A call that either throws or goes through. *)
Definition may_throw (o : option JsError) : M unit :=
  match o with
  | Some e => throw e
  | None => ret tt
  end.

(** Reading a property of, or destructuring, a possibly undefined value. *)
Definition deref {A} (what : string) (o : option A) : result A :=
  match o with
  | Some a => Ok a
  | None => Throw (TypeError what)
  end.

Declare Scope act_scope.
Delimit Scope act_scope with act.
Notation "'let*' x ':=' m 'in' k" := (bind m (fun x => k))
  (at level 10, x name, m at level 100, k at level 200) : act_scope.

(** The error monad of the code that emits nothing. *)
Definition rbind {A B} (r : result A) (k : A → result B) : result B :=
  match r with
  | Ok a => k a
  | Throw e => Throw e
  end.

Declare Scope res_scope.
Delimit Scope res_scope with res.
Notation "'let*' x ':=' r 'in' k" := (rbind r (fun x => k))
  (at level 10, x name, r at level 100, k at level 200) : res_scope.

(** [xs.map(f)] where [f] may throw: the first throw ends the map. *)
Fixpoint rmap {A B} (f : A → result B) (xs : list A) : result (list B) :=
  match xs with
  | [] => Ok []
  | x :: rest =>
      (let* y := f x in
       let* ys := rmap f rest in
       Ok (y :: ys))%res
  end.

(** [xs.forEach(f)] in the monad of the actions. *)
Fixpoint for_each {A} (xs : list A) (f : A → M unit) : M unit :=
  match xs with
  | [] => ret tt
  | x :: rest => (let* _ := f x in for_each rest f)%act
  end.

(** ** generateSegmentation (lines 121-212) *)

Definition tissue : CodeSequence :=
  {| CodeValue := "T-D0050";
     CodingSchemeDesignator := "SRT";
     CodeMeaning := "Tissue" |}.

(** The callback of [Object.entries(...).forEach], lines 171-200, for a
    segment that is not null.  [key] is the key of the entry. *)
Definition segment_metadata (env : Env) (segmentationId : string)
    (representations : list Representation) (key : string)
    (segment : Segment) : result SegmentMetadata :=
  (let firstRepresentation := head representations in
   let* firstRepresentation := deref "viewportId" firstRepresentation in
   let* color :=
     svc_getSegmentColor env (viewportId firstRepresentation)
       segmentationId (segmentIndex segment) in
   let RecommendedDisplayCIELabValue :=
     map (Math_round env)
       (rgb2DICOMLAB env
          (map (fun value => PrimFloat.div value 255%float) (take 3 color))) in
   Ok {| SegmentNumber := key;
         SegmentLabel := seg_label segment;
         SegmentAlgorithmType := str_or (algorithmType segment) "MANUAL";
         SegmentAlgorithmName := str_or (algorithmName segment) "OHIF Brush";
         RecommendedDisplayCIELabValue := RecommendedDisplayCIELabValue;
         SegmentedPropertyCategoryCodeSequence := tissue;
         SegmentedPropertyTypeCodeSequence := tissue |})%res.

(** The [forEach] of lines 165-202 over the entries of the segments
    object; a null segment is skipped. *)
Fixpoint attach_metadata (env : Env) (segmentationId : string)
    (representations : list Representation)
    (entries : list (string * option Segment))
    (metadata : gmap string SegmentMetadata)
    : result (gmap string SegmentMetadata) :=
  match entries with
  | [] => Ok metadata
  | (key, None) :: rest =>
      attach_metadata env segmentationId representations rest metadata
  | (key, Some segment) :: rest =>
      (let* segmentMetadata :=
         segment_metadata env segmentationId representations key segment in
       attach_metadata env segmentationId representations rest
         (<[key := segmentMetadata]> metadata))%res
  end.

(** Lines 122-202: everything up to the call of the adapter; the result is
    the pair of arguments [referencedImages] and [labelmap3D] of that
    call. *)
Definition build_labelmap3D (env : Env) (segmentationId : string)
    : result (list (option Image) * Labelmap3D) :=
  (let segmentation := cs_getSegmentation env segmentationId in
   let* segmentation := deref "representationData" segmentation in
   let* representationData :=
     deref "Labelmap" (representationData segmentation) in
   let* labelmap := deref "imageIds" (Labelmap representationData) in
   let* imageIds := deref "map" (imageIds labelmap) in
   let* segImages :=
     rmap (fun imageId => cache_getImage env (Some imageId)) imageIds in
   let* referencedImages :=
     rmap (fun image =>
             let* image := deref "referencedImageId" image in
             cache_getImage env (referencedImageId image)) segImages in
   let* labelmaps2D :=
     rmap (fun segImage =>
             let* segImage := deref "getPixelData" segImage in
             Ok (labelmap2D_of segImage)) segImages in
   let segmentationInOHIF := svc_getSegmentation env segmentationId in
   let representations :=
     svc_getRepresentationsForSegmentation env segmentationId in
   let* segmentationInOHIF := deref "segments" segmentationInOHIF in
   let* metadata :=
     attach_metadata env segmentationId representations
       (segments segmentationInOHIF) ∅ in
   Ok (referencedImages,
       {| lm3_segmentsOnLabelmap := volume_segments labelmaps2D;
          lm3_metadata := metadata;
          lm3_labelmaps2D := labelmaps2D |}))%res.

(** [options = {}] *)
Definition no_options : Options := {| SeriesDescription := None |}.

Definition generateSegmentation (env : Env) (segmentationId : string)
    (options : Options) : M (option GeneratedSegmentation) :=
  (let* args := lift (build_labelmap3D env segmentationId) in
   let* _ := emit (EncodeSegmentation (fst args) (snd args) options) in
   lift (adapter_generateSegmentation env (fst args) (snd args) options))%act.

(** ** downloadSegmentation (lines 223-230) *)

Definition downloadSegmentation (env : Env) (segmentationId : string)
    : M unit :=
  (let segmentationInOHIF := svc_getSegmentation env segmentationId in
   let* generatedSegmentation :=
     generateSegmentation env segmentationId no_options in
   let* generatedSegmentation :=
     lift (deref "dataset" generatedSegmentation) in
   let* segmentationInOHIF := lift (deref "label" segmentationInOHIF) in
   let filename := template (label segmentationInOHIF) in
   let* _ :=
     may_throw (downloadDICOMData_throws env
                  (dataset generatedSegmentation) filename) in
   emit (DownloadDICOMData (dataset generatedSegmentation) filename))%act.

(** ** downloadSegmentationPdf (lines 253-370) *)

(** The test of line 265, negated: the entry exists and
    [representationData?.Labelmap?.imageIds] is there (an empty array is
    truthy). *)
Definition has_imageIds (segmentation : option CsSegmentation) : bool :=
  match segmentation with
  | Some {| representationData :=
              Some {| Labelmap := Some {| imageIds := Some _ |} |} |} => true
  | _ => false
  end.

Definition dquote : string := String (ascii_of_nat 34) EmptyString.

(** [`div[data-viewport-uid="${targetViewportId}"]`] *)
Definition viewport_selector (targetViewportId : string) : string :=
  "div[data-viewport-uid=" +:+ dquote +:+ targetViewportId +:+ dquote +:+ "]".

(** pdf-lib, as far as the action drives it. *)
Definition new_PdfDoc : PdfDoc := {| doc_pages := []; doc_images := [] |}.

(** [pdfDoc.addPage([w, h])]: the document with the page added, and the
    position of the page in it. *)
Definition addPage (doc : PdfDoc) (w h : Z) : PdfDoc * nat :=
  ({| doc_pages :=
        doc_pages doc ++
        [{| page_width := w; page_height := h; page_ops := [] |}];
      doc_images := doc_images doc |},
   length (doc_pages doc)).

Definition embedPng (doc : PdfDoc) (png : string) : PdfDoc :=
  {| doc_pages := doc_pages doc; doc_images := doc_images doc ++ [png] |}.

Definition page_draw (op : DrawOp) (pg : PdfPage) : PdfPage :=
  {| page_width := page_width pg;
     page_height := page_height pg;
     page_ops := page_ops pg ++ [op] |}.

(** [page.drawImage], [page.drawRectangle], [page.drawText] *)
Definition draw (doc : PdfDoc) (page : nat) (op : DrawOp) : PdfDoc :=
  {| doc_pages := alter (page_draw op) page (doc_pages doc);
     doc_images := doc_images doc |}.

(** The number literal [0.7]: the nearest binary64 value. *)
Definition opacity_0_7 : float := 0x1.6666666666666p-1%float.

(** Lines 315-320. *)
Definition segment_info (metadata : list SegmentInfo) : string :=
  if decide (0 < length metadata)%nat then
    join_lines
      (map (fun segment =>
              "- Segment " +:+ info_SegmentNumber segment +:+ ": " +:+
              info_SegmentLabel segment) metadata)
  else "No segment metadata available".

(** Lines 322-326. *)
Definition text_content (segmentationInOHIF : OhifSegmentation)
    (metadata : list SegmentInfo) : string :=
  join_lines
    [ "Segmentation: " +:+
        str_or (label segmentationInOHIF) "Unnamed Segmentation";
      "Segments: " +:+ pretty (length metadata);
      segment_info metadata ].

(** The body of the outer [try], lines 255-361. *)
Definition pdf_body (env : Env) (segmentationId : string)
    (viewportId : option string) : M unit :=
  ((* 1. Get the segmentation data *)
   let segmentationInOHIF := svc_getSegmentation env segmentationId in
   let* segmentationInOHIF :=
     match segmentationInOHIF with
     | None => throw (Error "Segmentation not found")
     | Some s => ret s
     end in
   let* _ :=
     try_catch
       (let segmentation := cs_getSegmentation env segmentationId in
        if has_imageIds segmentation then ret tt
        else throw (Error "Invalid segmentation data"))
       (fun error =>
          let* _ := emit (ConsoleError "Error getting segmentation:" error) in
          throw (Error "Failed to load segmentation data")) in
   (* 2. Get the viewport element to capture *)
   let targetViewportId := str_or viewportId (getActiveViewportId env) in
   let viewportElement :=
     querySelector env (viewport_selector targetViewportId) in
   let* viewportElement :=
     match viewportElement with
     | None => throw (Error "Viewport element not found")
     | Some el => ret el
     end in
   (* 3. Capture the viewport as an image *)
   let* canvas := lift (html2canvas env viewportElement) in
   (* 4. Now try to generate the segmentation data *)
   let* generatedSegmentation :=
     try_catch
       (generateSegmentation env segmentationId no_options)
       (fun error =>
          let* _ :=
            emit (ConsoleError "Error generating segmentation:" error) in
          ret (Some {| dataset := None; metadata := Some [] |})) in
   (* 5. Create PDF and add both the image and segmentation info *)
   let* _ := may_throw (pdf_create_throws env) in
   let pdfDoc := new_PdfDoc in
   let '(pdfDoc, page) := addPage pdfDoc (width canvas) (height canvas) in
   let* _ := may_throw (pdf_embedPng_throws env (toDataURL_png canvas)) in
   let pdfDoc := embedPng pdfDoc (toDataURL_png canvas) in
   let pdfDoc :=
     draw pdfDoc page
       (DrawImage (toDataURL_png canvas) 0 0 (width canvas) (height canvas)) in
   let* generatedSegmentation :=
     lift (deref "metadata" generatedSegmentation) in
   let metadata := default [] (metadata generatedSegmentation) in
   let textContent := text_content segmentationInOHIF metadata in
   let textWidth := 400 in
   let textHeight := 20 + Z.of_nat (length metadata) * 15 in
   let pdfDoc :=
     draw pdfDoc page
       (DrawRectangle 30 (height canvas - textHeight - 30)
          textWidth (textHeight + 20)
          {| red := 0; green := 0; blue := 0 |} opacity_0_7) in
   let pdfDoc :=
     draw pdfDoc page
       (DrawText textContent 50 (height canvas - 50) 12
          {| red := 1; green := 1; blue := 1 |} 15) in
   (* 6. Generate and download the PDF *)
   let* _ := may_throw (pdf_save_throws env pdfDoc) in
   let blob := PdfBlob pdfDoc in
   let* _ := may_throw (createObjectURL_throws env blob) in
   let* _ := emit (CreateObjectURL blob) in
   let link :=
     {| link_download :=
          str_or (label segmentationInOHIF) "segmentation" +:+ ".pdf";
        link_href := blob |} in
   let* _ := emit (AppendChild link) in
   let* _ := emit (Click link) in
   let* _ := emit (RemoveChild link) in
   emit (SetTimeoutRevoke blob 100))%act.

Definition downloadSegmentationPdf (env : Env) (segmentationId : string)
    (viewportId : option string) : M unit :=
  try_catch
    (pdf_body env segmentationId viewportId)
    (fun error =>
       (let* _ :=
          emit (ConsoleError "Error generating segmentation PDF:" error) in
        throw error)%act).

(** ** storeSegmentation (lines 383-435) *)

Definition with_wadoRoot (ds : Dataset) (root : option string) : Dataset :=
  {| ds_body := ds_body ds; wadoRoot := root |}.

(** Lines 405-407: a data source name that is undefined or empty selects
    the default data source; otherwise the first element of what
    [getDataSources] answers is taken, which throws when the answer is
    [undefined] and gives [undefined] when it is an empty array. *)
Definition selected_data_source (env : Env)
    (selectedDataSource : option string)
    (defaultDataSource : DataSourceRef) : result DataSourceRef :=
  match selectedDataSource with
  | Some name =>
      if decide (name = EmptyString) then Ok defaultDataSource
      else
        (let* sources := deref "0" (getDataSources env name) in
         Ok (match head sources with
             | Some source => SourceObject source
             | None => NoSource
             end))%res
  | None => Ok defaultDataSource
  end.

(** [selectedDataSourceConfig.store.dicom]: only a data source object has
    a store. *)
Definition store_of (selectedDataSourceConfig : DataSourceRef)
    : result DataSource :=
  match selectedDataSourceConfig with
  | SourceObject source => Ok source
  | SourceArray _ => Throw (TypeError "dicom")
  | NoSource => Throw (TypeError "store")
  end.

(** The body of the [try] of lines 404-429. *)
Definition store_body (env : Env) (segmentationId : string)
    (label : option string) (defaultDataSource : DataSourceRef)
    (response : PromptResponse) : M (option Dataset) :=
  (let* selectedDataSourceConfig :=
     lift (selected_data_source env (prompt_dataSourceName response)
             defaultDataSource) in
   let* generatedData :=
     generateSegmentation env segmentationId
       {| SeriesDescription :=
            Some (str_or (prompt_value response)
                    (str_or label "Research Derived Series")) |} in
   let* naturalizedReport :=
     match generatedData with
     | Some {| dataset := Some d |} => ret d
     | _ => throw (Error "Error during segmentation generation")
     end in
   let* selectedDataSourceConfig :=
     lift (store_of selectedDataSourceConfig) in
   let* _ :=
     may_throw (store_dicom selectedDataSourceConfig naturalizedReport) in
   let* _ :=
     emit (StoreDicom (source_name selectedDataSourceConfig)
             naturalizedReport) in
   let naturalizedReport :=
     with_wadoRoot naturalizedReport
       (config_wadoRoot selectedDataSourceConfig) in
   let* _ := emit (AddInstances [naturalizedReport] true) in
   ret (Some naturalizedReport))%act.

(** The action resolves to the stored report, or to [undefined] ([None])
    when the prompt was not answered with [CREATE_REPORT]. *)
Definition storeSegmentation (env : Env) (segmentationId : string)
    (dataSource : option DataSource) : M (option Dataset) :=
  (let segmentation := svc_getSegmentation env segmentationId in
   let* segmentation :=
     match segmentation with
     | None => throw (Error "No segmentation found")
     | Some s => ret s
     end in
   let label := label segmentation in
   let defaultDataSource :=
     match dataSource with
     | Some d => SourceObject d
     | None => getActiveDataSource env
     end in
   let* _ := emit (ShowReportDialog "Store Segmentation") in
   let* response := lift (createReportDialogPrompt env) in
   if decide (prompt_action response = CREATE_REPORT env) then
     try_catch
       (store_body env segmentationId label defaultDataSource response)
       (fun error =>
          let* _ :=
            emit (ConsoleDebug "Error storing segmentation:" error) in
          throw error)
   else ret None)%act.

(** ** downloadRTSS (lines 443-469) *)

Definition downloadRTSS (env : Env) (segmentationId : string) : M unit :=
  (let segmentations := svc_getSegmentation env segmentationId in
   let* _ := emit (EncodeRTSS segmentations) in
   let* RTSS := lift (adapter_generateRTSS env segmentations) in
   try_catch
     (let* _ := may_throw (datasetToBlob_throws env RTSS) in
      let reportBlob := DicomBlob RTSS in
      let* _ := may_throw (createObjectURL_throws env reportBlob) in
      let* _ := emit (CreateObjectURL reportBlob) in
      let objectUrl := reportBlob in
      let* _ := may_throw (location_assign_throws env objectUrl) in
      emit (LocationAssign objectUrl))
     (fun e => emit (ConsoleWarn e)))%act.

(** ** setBrushSize and setThresholdRange (lines 470-507) *)

(** An argument that may be left out, [undefined], or [null]. *)
Inductive Nullable (A : Type) :=
  | Undefined
  | Null
  | Defined (a : A).
Arguments Undefined {A}.
Arguments Null {A}.
Arguments Defined {A} a.

Definition Number (env : Env) (value : JsValue) : float :=
  match value with
  | VNumber n => n
  | VString s => Number_of_string env s
  end.

Definition setBrushSize (env : Env) (value : JsValue)
    (toolNames : Nullable (list string)) : M unit :=
  let brushSize := Number env value in
  match getToolGroupIds env with
  | None => ret tt
  | Some toolGroupIds =>
      for_each toolGroupIds (fun toolGroupId =>
        match toolNames with
        | Defined [] =>
            emit (SetBrushSizeForToolGroup toolGroupId brushSize None)
        | Defined toolNames =>
            for_each toolNames (fun toolName =>
              emit (SetBrushSizeForToolGroup toolGroupId brushSize
                      (Some toolName)))
        | Undefined | Null => ret tt
        end)
  end.

Definition default_threshold_tools : list string :=
  [ "ThresholdCircularBrush";
    "ThresholdSphereBrush";
    "ThresholdCircularBrushDynamic";
    "ThresholdSphereBrushDynamic" ].

Definition setThresholdRange (env : Env) (value : list float)
    (toolNames : Nullable (list string)) : M unit :=
  let toolNames :=
    match toolNames with
    | Undefined => Defined default_threshold_tools
    | other => other
    end in
  let toolGroupIds := getToolGroupIds env in
  match toolGroupIds with
  | None | Some [] => ret tt
  | Some toolGroupIds =>
      for_each toolGroupIds (fun toolGroupId =>
        let toolGroup := getToolGroup env toolGroupId in
        match toolNames with
        | Defined toolNames =>
            for_each toolNames (fun toolName =>
              (let* toolGroup :=
                 lift (deref "setToolConfiguration" toolGroup) in
               emit (SetToolConfiguration toolGroup toolName value))%act)
        | Undefined | Null => ret tt
        end)
  end.

(** What a trace does to a state of the tools, whatever the tools library
    does on each call. *)
Definition replay {S : Type} (handler : Event → S → S)
    (trace : list Event) (s : S) : S :=
  fold_left (fun s ev => handler ev s) trace s.

(** ** Notions the statements use *)

(** The [imageIds] that line 124 destructures, when every property on the
    way to them is there. *)
Definition labelmap_imageIds (env : Env) (segmentationId : string)
    : option (list string) :=
  segmentation ← cs_getSegmentation env segmentationId;
  data ← representationData segmentation;
  labelmap ← Labelmap data;
  imageIds labelmap.

(** [segments] lists, without repetition, exactly the values of [values]
    that are not zero. *)
Definition distinct_nonzero (values segments : list Z) : Prop :=
  NoDup segments ∧ ∀ v, v ∈ segments ↔ v ∈ values ∧ v ≠ 0.

(** [segments] lists, without repetition, exactly the members of the
    per-slice lists of [labelmaps2D]. *)
Definition union_of_slices (labelmaps2D : list Labelmap2D)
    (segments : list Z) : Prop :=
  NoDup segments ∧
  ∀ v, v ∈ segments ↔
       ∃ slice, slice ∈ labelmaps2D ∧ v ∈ lm2_segmentsOnLabelmap slice.

(** The metadata entry of a segment whose display colour is [color], under
    the key [key] of the segments object. *)
Definition metadata_entry (env : Env) (key : string) (segment : Segment)
    (color : list float) : SegmentMetadata :=
  {| SegmentNumber := key;
     SegmentLabel := seg_label segment;
     SegmentAlgorithmType :=
       match algorithmType segment with
       | Some t => if decide (t = EmptyString) then "MANUAL" else t
       | None => "MANUAL"
       end;
     SegmentAlgorithmName :=
       match algorithmName segment with
       | Some n => if decide (n = EmptyString) then "OHIF Brush" else n
       | None => "OHIF Brush"
       end;
     RecommendedDisplayCIELabValue :=
       map (Math_round env)
         (rgb2DICOMLAB env
            (map (λ value, PrimFloat.div value 255%float) (take 3 color)));
     SegmentedPropertyCategoryCodeSequence :=
       {| CodeValue := "T-D0050"; CodingSchemeDesignator := "SRT";
          CodeMeaning := "Tissue" |};
     SegmentedPropertyTypeCodeSequence :=
       {| CodeValue := "T-D0050"; CodingSchemeDesignator := "SRT";
          CodeMeaning := "Tissue" |} |}.

(** The options storeSegmentation generates with (lines 411-413). *)
Definition store_options (segmentation : OhifSegmentation)
    (response : PromptResponse) : Options :=
  {| SeriesDescription :=
       Some (str_or (prompt_value response)
               (str_or (label segmentation) "Research Derived Series")) |}.

(** The answer to the prompt names no data source. *)
Definition no_source_named (response : PromptResponse) : Prop :=
  prompt_dataSourceName response = None ∨
  prompt_dataSourceName response = Some EmptyString.

(** [source] is the data source selected for storing: the first data
    source configured under the name chosen in the prompt; when no name was
    chosen, the data source passed to the action; when none was passed
    either, the active data source, provided the extension manager hands
    it over as a data source object. *)
Inductive user_selected (env : Env) (dataSource : option DataSource)
    (response : PromptResponse) : DataSource → Prop :=
  | selected_by_name (name : string) (source : DataSource)
      (others : list DataSource) :
      prompt_dataSourceName response = Some name →
      name ≠ EmptyString →
      getDataSources env name = Some (source :: others) →
      user_selected env dataSource response source
  | selected_passed (source : DataSource) :
      no_source_named response →
      dataSource = Some source →
      user_selected env dataSource response source
  | selected_active (source : DataSource) :
      no_source_named response →
      dataSource = None →
      getActiveDataSource env = SourceObject source →
      user_selected env dataSource response source.

(** The extension manager knows the data source name chosen in the prompt,
    if one was chosen. *)
Definition named_source_known (env : Env) (response : PromptResponse)
    : Prop :=
  ∀ name,
    prompt_dataSourceName response = Some name →
    name ≠ EmptyString →
    getDataSources env name ≠ None.

(** The selector of the viewport element the PDF export captures
    (line 274-277). *)
Definition target_selector (env : Env) (viewportId : option string)
    : string :=
  viewport_selector (str_or viewportId (getActiveViewportId env)).

(** The page of the PDF built from [canvas] when the metadata list is
    empty, with [text] as its text block. *)
Definition page_without_metadata (canvas : Canvas) (text : string)
    : PdfPage :=
  {| page_width := width canvas;
     page_height := height canvas;
     page_ops :=
       [ DrawImage (toDataURL_png canvas) 0 0 (width canvas) (height canvas);
         DrawRectangle 30 (height canvas - 20 - 30) 400 40
           {| red := 0; green := 0; blue := 0 |} opacity_0_7;
         DrawText text 50 (height canvas - 50) 12
           {| red := 1; green := 1; blue := 1 |} 15 ] |}.

Definition is_console_error (ev : Event) : Prop :=
  ∃ msg e, ev = ConsoleError msg e.

(** The events an action adds to the trace [w]. *)
Definition emitted {A : Type} (m : M A) (w : list Event) : list Event :=
  drop (length w) (m w).2.

(** ** A small study, used to run the actions

    Two label-map slices over two CT slices, one segmentation ["seg-1"]
    with two segments and a null entry; ["seg-2"] is registered but one of
    its slices is not in the cache; ["seg-blank"] has one slice without any
    segment.  The colour conversion and the rounding are stand-ins. *)
Module Demo.

Definition images : gmap string Image :=
list_to_map
  [ ("seg:0", {| getPixelData := [0; 1; 1; 2; 0; 1]; rows := 2;
                 columns := 3; referencedImageId := Some "ct:0" |});
    ("seg:1", {| getPixelData := [0; 0; 3; 3; 2; 0]; rows := 2;
                 columns := 3; referencedImageId := Some "ct:1" |});
    ("blank:0", {| getPixelData := [0; 0; 0; 0; 0; 0]; rows := 2;
                   columns := 3; referencedImageId := Some "ct:0" |});
    ("ct:0", {| getPixelData := [100; 120; 90; 80; 95; 101]; rows := 2;
                columns := 3; referencedImageId := None |});
    ("ct:1", {| getPixelData := [99; 121; 93; 82; 96; 104]; rows := 2;
                columns := 3; referencedImageId := None |}) ].

Definition labelmap_of (ids : list string) : CsSegmentation :=
{| representationData :=
     Some {| Labelmap := Some {| imageIds := Some ids |} |} |}.

Definition cs_state : gmap string CsSegmentation :=
list_to_map
  [ ("seg-1", labelmap_of ["seg:0"; "seg:1"]);
    ("seg-2", labelmap_of ["seg:0"; "seg:9"]);
    ("seg-blank", labelmap_of ["blank:0"]) ].

Definition liver : Segment :=
{| seg_label := "Liver"; segmentIndex := 1;
   algorithmType := None; algorithmName := None |}.

Definition lesion : Segment :=
{| seg_label := "Lesion"; segmentIndex := 2;
   algorithmType := Some "SEMIAUTOMATIC";
   algorithmName := Some "Threshold" |}.

Definition seg1 : OhifSegmentation :=
{| label := Some "Liver study";
   segments := [("1", Some liver); ("2", Some lesion); ("3", None)] |}.

Definition seg2 : OhifSegmentation :=
{| label := Some "Broken"; segments := [("1", Some liver)] |}.

Definition seg_blank : OhifSegmentation :=
{| label := None; segments := [] |}.

Definition service_state : gmap string OhifSegmentation :=
list_to_map [("seg-1", seg1); ("seg-2", seg2); ("seg-blank", seg_blank)].

Definition segment_color (index : Z) : result (list float) :=
if decide (index = 1) then Ok [255; 0; 0; 255]%float
else if decide (index = 2) then Ok [0; 255; 0; 255]%float
else Throw (Error "no colour").

Definition encode (referencedImages : list (option Image))
  (labelmap3D : Labelmap3D) (options : Options)
  : result (option GeneratedSegmentation) :=
Ok (Some
      {| dataset :=
           Some {| ds_body := "SEG " +:+ template (SeriesDescription options);
                   wadoRoot := None |};
         metadata :=
           Some (map (λ kv, {| info_SegmentNumber := SegmentNumber kv.2;
                               info_SegmentLabel := SegmentLabel kv.2 |})
                   (map_to_list (lm3_metadata labelmap3D))) |}).

Definition encode_rtss (segmentations : option OhifSegmentation)
  : result string :=
match segmentations with
| None => Throw (TypeError "representationData")
| Some s => Ok ("RTSS " +:+ template (label s))
end.

Definition canvas : Canvas :=
{| width := 512; height := 512;
   toDataURL_png := "data:image/png;base64,iVBORw0KGgo=" |}.

Definition pacs : DataSource :=
{| source_name := "pacs";
   store_dicom := λ _, None;
   config_wadoRoot := Some "https://pacs.example.org/wado" |}.

Definition readonly : DataSource :=
{| source_name := "readonly";
   store_dicom := λ _, Some (Error "403 Forbidden");
   config_wadoRoot := Some "https://archive.example.org/wado" |}.

Definition env (prompt : result PromptResponse)
  (toolGroupIds : option (list string)) : Env :=
{| cs_getSegmentation := λ id, cs_state !! id;
   cache_getImage := λ imageId,
     match imageId with
     | Some id => Ok (images !! id)
     | None => Throw (Error "getImage: imageId must not be undefined")
     end;
   svc_getSegmentation := λ id, service_state !! id;
   svc_getRepresentationsForSegmentation := λ id,
     if decide (id = "seg-1") then [{| viewportId := "viewport-1" |}]
     else [];
   svc_getSegmentColor := λ _ _ index, segment_color index;
   rgb2DICOMLAB := map (λ v, PrimFloat.mul v 65535%float);
   Math_round := λ v, v;
   adapter_generateSegmentation := encode;
   adapter_generateRTSS := encode_rtss;
   downloadDICOMData_throws := λ _ _, None;
   datasetToBlob_throws := λ rtss,
     if decide (rtss = "RTSS Broken") then Some (Error "cannot serialise")
     else None;
   createObjectURL_throws := λ _, None;
   location_assign_throws := λ _, None;
   getActiveViewportId := "viewport-1";
   querySelector := λ selector,
     if decide (selector = viewport_selector "viewport-1")
     then Some "element-1"
     else if decide (selector = viewport_selector "viewport-2")
     then Some "element-2"
     else None;
   html2canvas := λ element,
     if decide (element = "element-1") then Ok canvas
     else Throw (Error "Unable to render element");
   pdf_create_throws := None;
   pdf_embedPng_throws := λ _, None;
   pdf_save_throws := λ _, None;
   getActiveDataSource := SourceArray [pacs];
   getDataSources := λ name,
     if decide (name = "pacs") then Some [pacs]
     else if decide (name = "readonly") then Some [readonly]
     else None;
   createReportDialogPrompt := prompt;
   CREATE_REPORT := 1;
   getToolGroupIds := toolGroupIds;
   getToolGroup := λ id, Some id;
   Number_of_string := λ _, nan |}.

Definition create_report : PromptResponse :=
{| prompt_value := Some "Liver SEG";
   prompt_dataSourceName := Some "pacs";
   prompt_action := 1 |}.

Definition create_report_readonly : PromptResponse :=
{| prompt_value := None;
   prompt_dataSourceName := Some "readonly";
   prompt_action := 1 |}.

Definition cancel : PromptResponse :=
{| prompt_value := None;
   prompt_dataSourceName := None;
   prompt_action := 0 |}.

(** The environment of most runs: the prompt is answered with
  [CREATE_REPORT], two tool groups are active. *)
Definition env0 : Env := env (Ok create_report) (Some ["default"; "mpr"]).

(** The arguments of the adapter call for ["seg-1"]. *)
Definition built1 : list (option Image) * Labelmap3D :=
match build_labelmap3D env0 "seg-1" with
| Ok args => args
| Throw _ => ([], {| lm3_segmentsOnLabelmap := []; lm3_metadata := ∅;
                     lm3_labelmaps2D := [] |})
end.

(** What the generation step of storeSegmentation yields for ["seg-1"],
    and the trace after it. *)
Definition generated1
    : result (option GeneratedSegmentation) * list Event :=
  generateSegmentation env0 "seg-1" (store_options seg1 create_report)
    [ShowReportDialog "Store Segmentation"].

Definition stored_data : GeneratedSegmentation :=
  match generated1.1 with
  | Ok (Some data) => data
  | _ => {| dataset := None; metadata := None |}
  end.

Definition built_blank : list (option Image) * Labelmap3D :=
match build_labelmap3D env0 "seg-blank" with
| Ok args => args
| Throw _ => ([], {| lm3_segmentsOnLabelmap := []; lm3_metadata := ∅;
                     lm3_labelmaps2D := [] |})
end.

End Demo.

(** ** getTargetViewport and loadSegmentationsForViewport (lines 30-37,
    82-107) *)

(** A viewport of the grid, as the loader reads it. *)
Record GridViewport := {
  grid_viewportId : string;
  displaySetInstanceUIDs : list string;
}.

(** [viewportGridService.getState()]: the [viewports] map and the active
    viewport id, which may be undefined. *)
Record GridState := {
  viewports : gmap string GridViewport;
  activeViewportId : option string;
}.

(** [viewportId || activeViewportId], then [viewports.get(...)]; looking up
    [undefined] finds nothing. *)
Definition getTargetViewport (viewportId : option string)
    (state : GridState) : option GridViewport :=
  let targetViewportId :=
    match viewportId with
    | Some id => if decide (id = EmptyString) then activeViewportId state
                 else Some id
    | None => activeViewportId state
    end in
  match targetViewportId with
  | Some id => viewports state !! id
  | None => None
  end.

Record SegmentationConfig := {
  config_label : option string;
  config_segments : list (string * option Segment);
}.

(** An element of the [segmentations] argument of the loader. *)
Record SegmentationInput := {
  input_segmentationId : string;
  config : option SegmentationConfig;
}.

Record LoaderEnv := {
  (* viewportGridService.getState *)
  grid_getState : GridState;
  (* displaySetService.getDisplaySetByUID *)
  getDisplaySetByUID : option string → option string;
  (* segmentationService.createLabelmapForDisplaySet,
     addOrUpdateSegmentation, addSegmentationRepresentation *)
  createLabelmapForDisplaySet_throws :
    option string → string → SegmentationConfig → option JsError;
  addOrUpdateSegmentation_throws : SegmentationInput → option JsError;
  addSegmentationRepresentation_throws : string → string → option JsError;
}.

(** The calls of the loader that went through. *)
Inductive LoadEvent :=
  | CreateLabelmapForDisplaySet (displaySet : option string)
      (segmentationId : string) (segments : list (string * option Segment))
      (label : option string)
  | AddOrUpdateSegmentation (segmentation : SegmentationInput)
  | AddSegmentationRepresentation (viewportId : string)
      (segmentationId : string).

(** The action: its outcome and the service calls it completed, in
    order. *)
Definition loadSegmentationsForViewport (env : LoaderEnv)
    (segmentations : list SegmentationInput) (viewportId : option string)
    : result string * list LoadEvent :=
  let viewport := getTargetViewport viewportId (grid_getState env) in
  match viewport with
  | None => (Throw (TypeError "displaySetInstanceUIDs"), [])
  | Some viewport =>
      let displaySetInstanceUID := head (displaySetInstanceUIDs viewport) in
      let segmentation := head segmentations in
      match segmentation with
      | None => (Throw (TypeError "segmentationId"), [])
      | Some segmentation =>
          let segmentationId := input_segmentationId segmentation in
          match config segmentation with
          | None => (Throw (TypeError "label"), [])
          | Some config =>
              let label := config_label config in
              let segments := config_segments config in
              let displaySet :=
                getDisplaySetByUID env displaySetInstanceUID in
              let created :=
                CreateLabelmapForDisplaySet displaySet segmentationId
                  segments label in
              let registered := AddOrUpdateSegmentation segmentation in
              let represented :=
                AddSegmentationRepresentation (grid_viewportId viewport)
                  segmentationId in
              match createLabelmapForDisplaySet_throws env displaySet
                      segmentationId config with
              | Some e => (Throw e, [])
              | None =>
                  match addOrUpdateSegmentation_throws env segmentation with
                  | Some e => (Throw e, [created])
                  | None =>
                      match addSegmentationRepresentation_throws env
                              (grid_viewportId viewport) segmentationId with
                      | Some e => (Throw e, [created; registered])
                      | None =>
                          (Ok segmentationId,
                           [created; registered; represented])
                      end
                  end
              end
          end
      end
  end.

(** ** The entry point of the app (platform/app/src/index.js, lines 23-43) *)

Record AppConfig := {
  routerBasename : option string;
  config_body : string;
}.

(** The callback of [loadDynamicConfig(window.config).then]: the value of
    [window.config] that is handed to the [App] element as [config].
    [config_json] is what the dynamic configuration resolved to; only [null]
    keeps the static configuration. *)
Definition app_config (window_config : AppConfig)
    (config_json : Nullable AppConfig) (publicUrl : string)
    : result AppConfig :=
  (let* config :=
     match config_json with
     | Null => Ok window_config
     | Defined dynamic => Ok dynamic
     | Undefined => Throw (TypeError "routerBasename")
     end in
   Ok {| routerBasename :=
           match routerBasename config with
           | Some base =>
               if decide (base = EmptyString) then Some publicUrl
               else Some base
           | None => Some publicUrl
           end;
         config_body := config_body config |})%res.

(** ** More runs of the small study *)
Module Lab.

(** [base] with three of its services replaced. *)
Definition env_with
    (cs : string → option CsSegmentation)
    (adapter : list (option Image) → Labelmap3D → Options →
               result (option GeneratedSegmentation))
    (toolGroup : string → option string) (base : Env) : Env :=
  {| cs_getSegmentation := cs;
     cache_getImage := cache_getImage base;
     svc_getSegmentation := svc_getSegmentation base;
     svc_getRepresentationsForSegmentation :=
       svc_getRepresentationsForSegmentation base;
     svc_getSegmentColor := svc_getSegmentColor base;
     rgb2DICOMLAB := rgb2DICOMLAB base;
     Math_round := Math_round base;
     adapter_generateSegmentation := adapter;
     adapter_generateRTSS := adapter_generateRTSS base;
     downloadDICOMData_throws := downloadDICOMData_throws base;
     datasetToBlob_throws := datasetToBlob_throws base;
     createObjectURL_throws := createObjectURL_throws base;
     location_assign_throws := location_assign_throws base;
     getActiveViewportId := getActiveViewportId base;
     querySelector := querySelector base;
     html2canvas := html2canvas base;
     pdf_create_throws := pdf_create_throws base;
     pdf_embedPng_throws := pdf_embedPng_throws base;
     pdf_save_throws := pdf_save_throws base;
     getActiveDataSource := getActiveDataSource base;
     getDataSources := getDataSources base;
     createReportDialogPrompt := createReportDialogPrompt base;
     CREATE_REPORT := CREATE_REPORT base;
     getToolGroupIds := getToolGroupIds base;
     getToolGroup := toolGroup;
     Number_of_string := Number_of_string base |}.

(** The study with an adapter that returns [undefined]. *)
Definition env_silent_adapter : Env :=
  env_with (cs_getSegmentation Demo.env0) (λ _ _ _, Ok None)
    (getToolGroup Demo.env0) Demo.env0.

(** The study with an empty segmentation state: the service still knows
    the segmentations. *)
Definition env_no_state : Env :=
  env_with (λ _, None) (adapter_generateSegmentation Demo.env0)
    (getToolGroup Demo.env0) Demo.env0.

(** The study with three tool groups, the second of which the tool group
    service cannot find. *)
Definition env_lost_group : Env :=
  env_with (cs_getSegmentation Demo.env0)
    (adapter_generateSegmentation Demo.env0)
    (λ id, if decide (id = "lost") then None else Some id)
    (Demo.env (Ok Demo.create_report) (Some ["default"; "lost"; "mpr"])).

(** [base] with another RTSS adapter. *)
Definition env_with_rtss
    (rtss : option OhifSegmentation → result string) (base : Env) : Env :=
  {| cs_getSegmentation := cs_getSegmentation base;
     cache_getImage := cache_getImage base;
     svc_getSegmentation := svc_getSegmentation base;
     svc_getRepresentationsForSegmentation :=
       svc_getRepresentationsForSegmentation base;
     svc_getSegmentColor := svc_getSegmentColor base;
     rgb2DICOMLAB := rgb2DICOMLAB base;
     Math_round := Math_round base;
     adapter_generateSegmentation := adapter_generateSegmentation base;
     adapter_generateRTSS := rtss;
     downloadDICOMData_throws := downloadDICOMData_throws base;
     datasetToBlob_throws := datasetToBlob_throws base;
     createObjectURL_throws := createObjectURL_throws base;
     location_assign_throws := location_assign_throws base;
     getActiveViewportId := getActiveViewportId base;
     querySelector := querySelector base;
     html2canvas := html2canvas base;
     pdf_create_throws := pdf_create_throws base;
     pdf_embedPng_throws := pdf_embedPng_throws base;
     pdf_save_throws := pdf_save_throws base;
     getActiveDataSource := getActiveDataSource base;
     getDataSources := getDataSources base;
     createReportDialogPrompt := createReportDialogPrompt base;
     CREATE_REPORT := CREATE_REPORT base;
     getToolGroupIds := getToolGroupIds base;
     getToolGroup := getToolGroup base;
     Number_of_string := Number_of_string base |}.

(** The study with an RTSS adapter that makes an empty structure set out
    of [undefined] where the one of the study throws. *)
Definition env_lenient_rtss : Env :=
  env_with_rtss
    (λ segmentations,
       match segmentations with
       | None => Ok "RTSS of nothing"
       | Some s => Ok ("RTSS " +:+ template (label s))
       end)
    Demo.env0.

(** The study with the label map of ["seg-1"] under every identifier:
    ["seg-2"] then has its slices in the cache and a segment, but no
    representation. *)
Definition env_no_representation : Env :=
  env_with (λ _, Some (Demo.labelmap_of ["seg:0"; "seg:1"]))
    (adapter_generateSegmentation Demo.env0) (getToolGroup Demo.env0)
    Demo.env0.

(** A prompt answered with CREATE_REPORT that names no data source. *)
Definition create_report_default : PromptResponse :=
  {| prompt_value := None;
     prompt_dataSourceName := None;
     prompt_action := 1 |}.

(** A prompt answered with CREATE_REPORT for a data source that is not
    configured. *)
Definition create_report_nowhere : PromptResponse :=
  {| prompt_value := None;
     prompt_dataSourceName := Some "nowhere";
     prompt_action := 1 |}.

Definition grid : GridState :=
  {| viewports :=
       list_to_map
         [ ("viewport-1", {| grid_viewportId := "viewport-1";
                             displaySetInstanceUIDs := ["ds-ct"] |});
           ("viewport-2", {| grid_viewportId := "viewport-2";
                             displaySetInstanceUIDs := [] |}) ];
     activeViewportId := Some "viewport-1" |}.

(** The loader's services; creating a label map fails for the
    segmentation ["seg-locked"]. *)
Definition loader : LoaderEnv :=
  {| grid_getState := grid;
     getDisplaySetByUID := λ uid,
       match uid with
       | Some id => if decide (id = "ds-ct") then Some "CT series" else None
       | None => None
       end;
     createLabelmapForDisplaySet_throws := λ _ id _,
       if decide (id = "seg-locked") then Some (Error "locked") else None;
     addOrUpdateSegmentation_throws := λ _, None;
     addSegmentationRepresentation_throws := λ _ _, None |}.

Definition input (id : string) : SegmentationInput :=
  {| input_segmentationId := id;
     config := Some {| config_label := Some "Liver study";
                       config_segments := segments Demo.seg1 |} |}.

End Lab.

(** ** Notions the further statements use *)

(** A store call or an addition to the DICOM metadata store. *)
Definition is_store_event (ev : Event) : Prop :=
  (∃ source ds, ev = StoreDicom source ds) ∨
  (∃ instances made, ev = AddInstances instances made).

(** The tool names setThresholdRange goes over: the default four when the
    argument is left out, none for [null]. *)
Definition threshold_tool_names (toolNames : Nullable (list string))
    : list string :=
  match toolNames with
  | Undefined => default_threshold_tools
  | Null => []
  | Defined names => names
  end.

Definition is_encode_segmentation (ev : Event) : Prop :=
  ∃ referencedImages labelmap3D options,
    ev = EncodeSegmentation referencedImages labelmap3D options.

(** The page of the PDF built from [canvas] for [n] metadata entries, with
    [text] as its text block. *)
Definition page_with_metadata (canvas : Canvas) (n : nat) (text : string)
    : PdfPage :=
  {| page_width := width canvas;
     page_height := height canvas;
     page_ops :=
       [ DrawImage (toDataURL_png canvas) 0 0 (width canvas) (height canvas);
         DrawRectangle 30 (height canvas - (20 + Z.of_nat n * 15) - 30)
           400 (20 + Z.of_nat n * 15 + 20)
           {| red := 0; green := 0; blue := 0 |} opacity_0_7;
         DrawText text 50 (height canvas - 50) 12
           {| red := 1; green := 1; blue := 1 |} 15 ] |}.

(** ** Theorems *)

(** Unfolds the plumbing of the monad of the actions. *)
Ltac run_monad :=
  unfold bind, ret, throw, emit, lift, try_catch, may_throw; simpl.

Section SetLemmas.

Lemma Set_add_elem (s : list Z) (x y : Z) :
y ∈ Set_add s x ↔ y ∈ s ∨ y = x.
Proof.
unfold Set_add. case_decide as Hx.
- split; [by left | intros [H | ->]; done].
- rewrite elem_of_app, list_elem_of_singleton. tauto.
Qed.

Lemma Set_add_NoDup (s : list Z) (x : Z) :
NoDup s → NoDup (Set_add s x).
Proof.
intros Hs. unfold Set_add. case_decide as Hx; [done |].
apply NoDup_app. split_and!; [done | | apply NoDup_singleton].
intros y Hy Hy'. apply list_elem_of_singleton in Hy'. by subst.
Qed.

Lemma scan_step_elem (s : list Z) (x y : Z) :
y ∈ scan_step s x ↔ y ∈ s ∨ (y = x ∧ x ≠ 0).
Proof.
unfold scan_step. case_decide as Hx.
- rewrite Set_add_elem. intuition congruence.
- intuition congruence.
Qed.

Lemma scan_step_NoDup (s : list Z) (x : Z) :
NoDup s → NoDup (scan_step s x).
Proof.
intros Hs. unfold scan_step. case_decide; [by apply Set_add_NoDup | done].
Qed.

Lemma fold_scan_elem (l s : list Z) (y : Z) :
y ∈ fold_left scan_step l s ↔ y ∈ s ∨ (y ∈ l ∧ y ≠ 0).
Proof.
revert s. induction l as [| x l IH]; intros s; simpl.
- rewrite elem_of_nil. tauto.
- rewrite IH, scan_step_elem, elem_of_cons.
  split; [intros [[H | [-> H]] | [H1 H2]] | intros [H | [[-> | H1] H2]]];
    tauto.
Qed.

Lemma fold_scan_NoDup (l s : list Z) :
NoDup s → NoDup (fold_left scan_step l s).
Proof.
revert s. induction l as [| x l IH]; intros s Hs; simpl; [done |].
by apply IH, scan_step_NoDup.
Qed.

Lemma fold_Set_add_elem (l s : list Z) (y : Z) :
y ∈ fold_left Set_add l s ↔ y ∈ s ∨ y ∈ l.
Proof.
revert s. induction l as [| x l IH]; intros s; simpl.
- rewrite elem_of_nil. tauto.
- rewrite IH, Set_add_elem, elem_of_cons. tauto.
Qed.

Lemma fold_Set_add_NoDup (l s : list Z) :
NoDup s → NoDup (fold_left Set_add l s).
Proof.
revert s. induction l as [| x l IH]; intros s Hs; simpl; [done |].
by apply IH, Set_add_NoDup.
Qed.

End SetLemmas.

(** ** The label map handed to the adapter *)

Section Labelmap.

Lemma scan_pixels_snoc (pixelData : list Z) (segment : Z) :
scan_pixels (pixelData ++ [segment]) =
scan_step (scan_pixels pixelData) segment.
Proof. unfold scan_pixels. by rewrite fold_left_app. Qed.

Lemma scan_pixels_elem (pixelData : list Z) (v : Z) :
v ∈ scan_pixels pixelData ↔ v ∈ pixelData ∧ v ≠ 0.
Proof.
unfold scan_pixels. rewrite fold_scan_elem, elem_of_nil. tauto.
Qed.

Lemma scan_pixels_NoDup (pixelData : list Z) : NoDup (scan_pixels pixelData).
Proof. apply fold_scan_NoDup, NoDup_nil_2. Qed.

Lemma scan_pixels_gset (pixelData : list Z) :
list_to_set (scan_pixels pixelData) =@{gset Z}
list_to_set pixelData ∖ {[0]}.
Proof.
apply set_eq. intros v.
rewrite elem_of_difference, !elem_of_list_to_set, scan_pixels_elem.
rewrite elem_of_singleton. tauto.
Qed.

Lemma concat_segments_elem (labelmaps2D : list Labelmap2D) (v : Z) :
v ∈ concat (map lm2_segmentsOnLabelmap labelmaps2D) ↔
∃ slice, slice ∈ labelmaps2D ∧ v ∈ lm2_segmentsOnLabelmap slice.
Proof.
induction labelmaps2D as [| s l IH]; simpl.
- rewrite elem_of_nil. split; [done |].
  intros (slice & Hs & _). by apply elem_of_nil in Hs.
- rewrite elem_of_app, IH. split.
  + intros [Hv | (slice & Hs & Hv)].
    * exists s. split; [apply list_elem_of_here | done].
    * exists slice. split; [by apply list_elem_of_further | done].
  + intros (slice & Hs & Hv). apply elem_of_cons in Hs as [-> | Hs].
    * by left.
    * right. eauto.
Qed.

Lemma volume_segments_elem (labelmaps2D : list Labelmap2D) (v : Z) :
v ∈ volume_segments labelmaps2D ↔
∃ slice, slice ∈ labelmaps2D ∧ v ∈ lm2_segmentsOnLabelmap slice.
Proof.
unfold volume_segments, Set_of_array.
rewrite fold_Set_add_elem, elem_of_nil, concat_segments_elem. tauto.
Qed.

Lemma volume_segments_NoDup (labelmaps2D : list Labelmap2D) :
NoDup (volume_segments labelmaps2D).
Proof. apply fold_Set_add_NoDup, NoDup_nil_2. Qed.

Lemma rmap_Ok {A B} (f : A → result B) (xs : list A) (ys : list B) :
rmap f xs = Ok ys → Forall2 (λ x y, f x = Ok y) xs ys.
Proof.
revert ys. induction xs as [| x xs IH]; intros ys; simpl.
- intros [= <-]. constructor.
- destruct (f x) as [y |] eqn:Hy; simpl; [| done].
  destruct (rmap f xs) as [ys' |]; simpl; [| done].
  intros [= <-]. constructor; auto.
Qed.

Lemma Forall2_Ok {A B} (f : A → result B) (xs : list A) (ys : list B) :
Forall2 (λ x y, f x = Ok y) xs ys → rmap f xs = Ok ys.
Proof.
induction 1 as [| x y xs ys Hxy _ IH]; simpl; [done |].
by rewrite Hxy, IH.
Qed.

(** When the second and third [map] of the action go through, every
  image of [segImages] is there. *)
Lemma rmap_deref_Ok {A B} (what : string) (f : A → result B)
  (xs : list (option A)) (ys : list B) :
rmap (λ x, rbind (deref what x) f) xs = Ok ys →
∃ xs', xs = Some <$> xs' ∧ rmap f xs' = Ok ys.
Proof.
revert ys. induction xs as [| x xs IH]; intros ys; simpl.
- intros [= <-]. by exists [].
- destruct x as [x |]; simpl; [| done].
  destruct (f x) as [y |] eqn:Hy; simpl; [| done].
  destruct (rmap _ xs) as [ys' |] eqn:Hr; simpl; [| done].
  intros [= <-]. destruct (IH ys' eq_refl) as (xs' & -> & Hxs').
  exists (x :: xs'). simpl. by rewrite Hy, Hxs'.
Qed.

Lemma rmap_total {A B} (f : A → B) (xs : list A) :
rmap (λ x, Ok (f x)) xs = Ok (map f xs).
Proof. induction xs as [| x xs IH]; simpl; [done |]. by rewrite IH. Qed.

Lemma rmap_deref_Some {A B} (what : string) (f : A → result B)
  (xs : list A) :
rmap (λ x, rbind (deref what x) f) (Some <$> xs) = rmap f xs.
Proof. induction xs as [| x xs IH]; cbn; [done |]. by rewrite IH. Qed.

(** What a run of lines 122-202 that reaches the adapter went through. *)
Lemma build_labelmap3D_inv (env : Env) (segmentationId : string)
  (referencedImages : list (option Image)) (labelmap3D : Labelmap3D) :
build_labelmap3D env segmentationId = Ok (referencedImages, labelmap3D) →
∃ segmentation data labelmap ids segImages segmentationInOHIF,
  cs_getSegmentation env segmentationId = Some segmentation ∧
  representationData segmentation = Some data ∧
  Labelmap data = Some labelmap ∧
  imageIds labelmap = Some ids ∧
  Forall2 (λ imageId segImage,
             cache_getImage env (Some imageId) = Ok (Some segImage))
    ids segImages ∧
  Forall2 (λ segImage referenced,
             cache_getImage env (referencedImageId segImage) =
             Ok referenced)
    segImages referencedImages ∧
  svc_getSegmentation env segmentationId = Some segmentationInOHIF ∧
  attach_metadata env segmentationId
    (svc_getRepresentationsForSegmentation env segmentationId)
    (segments segmentationInOHIF) ∅ = Ok (lm3_metadata labelmap3D) ∧
  lm3_labelmaps2D labelmap3D = build_labelmaps2D segImages ∧
  lm3_segmentsOnLabelmap labelmap3D =
    volume_segments (build_labelmaps2D segImages).
Proof.
unfold build_labelmap3D. intros H.
destruct (cs_getSegmentation env segmentationId) as [cs |]; [| done].
destruct cs as [[rd |]]; [| done].
destruct rd as [[lm |]]; [| done].
destruct lm as [[ids |]]; [| done].
simpl in H.
destruct (rmap _ ids) as [segImages |] eqn:Hseg; [| done].
simpl in H.
destruct (rmap _ segImages) as [refs |] eqn:Href in H; [| done].
simpl in H.
apply rmap_deref_Ok in Href as (images & -> & Href).
destruct (rmap _ (Some <$> images)) as [lms |] eqn:Hlms in H; [| done].
simpl in H.
destruct (svc_getSegmentation env segmentationId) as [ohif |]; [| done].
simpl in H.
destruct (attach_metadata _ _ _ _ _) as [md |] eqn:Hmd; [| done].
simpl in H. injection H as <- <-. simpl.
rewrite rmap_deref_Some, rmap_total in Hlms. injection Hlms as <-.
eexists _, _, _, ids, images, ohif. split_and!; try done.
- apply rmap_Ok in Hseg. clear -Hseg.
  remember (Some <$> images) as l eqn:Hl. revert images Hl.
  induction Hseg as [| i o ids l Hio _ IH]; intros images Hl.
  + destruct images; [constructor | done].
  + destruct images as [| im images]; [done |].
    injection Hl as -> ->. constructor; auto.
- by apply rmap_Ok.
Qed.

End Labelmap.

(** ** Per-slice and volume-level segment sets *)

Section SegmentSets.

Context (env : Env) (segmentationId : string).
Context (referencedImages : list (option Image)) (labelmap3D : Labelmap3D).
Hypothesis Hbuilt :
build_labelmap3D env segmentationId = Ok (referencedImages, labelmap3D).

Lemma labelmap2D_of_exact (segImage : Image) :
distinct_nonzero (getPixelData segImage)
  (lm2_segmentsOnLabelmap (labelmap2D_of segImage)).
Proof.
split; simpl; [apply scan_pixels_NoDup | apply scan_pixels_elem].
Qed.

Lemma built_slices :
∃ imageIds segImages,
  labelmap_imageIds env segmentationId = Some imageIds ∧
  Forall2 (λ imageId segImage,
             cache_getImage env (Some imageId) = Ok (Some segImage))
    imageIds segImages ∧
  lm3_labelmaps2D labelmap3D = build_labelmaps2D segImages ∧
  lm3_segmentsOnLabelmap labelmap3D =
    volume_segments (lm3_labelmaps2D labelmap3D).
Proof.
destruct (build_labelmap3D_inv _ _ _ _ Hbuilt)
  as (cs & rd & lm & ids & segImages & ohif
      & Hcs & Hrd & Hlm & Hids & Hcache & _ & _ & _ & Hl2 & Hl3).
exists ids, segImages. split_and!; try done.
- unfold labelmap_imageIds. rewrite Hcs. simpl. rewrite Hrd. simpl.
  by rewrite Hlm.
- by rewrite Hl3, Hl2.
Qed.

(** C1.  Every slice the loop of generateSegmentation goes over (one per
  image id of the label map, in order) gets a record holding the pixel
  buffer of the slice and, as segmentsOnLabelmap, a duplicate-free list
  of exactly the values of that buffer that are not zero: every nonzero
  value of the buffer is in it, zero is not, nothing else is.  The list
  is the result of one left-to-right fold of the per-pixel step over
  the buffer. *)
Theorem slice_segments_exact :
∃ imageIds segImages,
  labelmap_imageIds env segmentationId = Some imageIds ∧
  Forall2 (λ imageId segImage,
             cache_getImage env (Some imageId) = Ok (Some segImage))
    imageIds segImages ∧
  Forall2 (λ segImage slice,
             lm2_pixelData slice = getPixelData segImage ∧
             distinct_nonzero (lm2_pixelData slice)
               (lm2_segmentsOnLabelmap slice) ∧
             (0 ∉ lm2_segmentsOnLabelmap slice) ∧
             lm2_segmentsOnLabelmap slice =
               fold_left scan_step (lm2_pixelData slice) [])
    segImages (lm3_labelmaps2D labelmap3D).
Proof.
destruct built_slices as (ids & segImages & Hids & Hcache & -> & _).
exists ids, segImages. split_and!; try done.
clear. induction segImages as [| im ims IH]; constructor; [| done].
split_and!; try done.
- apply labelmap2D_of_exact.
- simpl. rewrite scan_pixels_elem. tauto.
Qed.

(** C2.  The volume-level segmentsOnLabelmap that generateSegmentation
  builds is a duplicate-free list whose members are exactly the members
  of the per-slice segmentsOnLabelmap lists; when no slice holds a
  nonzero pixel value it is empty. *)
Theorem volume_segments_union :
union_of_slices (lm3_labelmaps2D labelmap3D)
  (lm3_segmentsOnLabelmap labelmap3D) ∧
((∀ slice v, slice ∈ lm3_labelmaps2D labelmap3D →
             v ∈ lm2_pixelData slice → v = 0) →
 lm3_segmentsOnLabelmap labelmap3D = []).
Proof.
destruct built_slices as (ids & segImages & _ & _ & Hl2 & ->).
split.
- split; [apply volume_segments_NoDup | apply volume_segments_elem].
- intros Hzero.
  destruct (volume_segments (lm3_labelmaps2D labelmap3D))
    as [| v l] eqn:Hv; [done | exfalso].
  assert (v ∈ volume_segments (lm3_labelmaps2D labelmap3D)) as Hin
    by (rewrite Hv; apply list_elem_of_here).
  apply volume_segments_elem in Hin as (slice & Hs & Hin).
  pose proof Hs as Hs'. rewrite Hl2 in Hs'.
  unfold build_labelmaps2D in Hs'.
  apply list_elem_of_In, in_map_iff in Hs' as (im & <- & _).
  simpl in Hin. apply scan_pixels_elem in Hin as [Hin Hnz].
  apply Hnz, (Hzero _ _ Hs). done.
Qed.

End SegmentSets.

Lemma slice_segments_exact_witness :
  build_labelmap3D Demo.env0 "seg-1" = Ok Demo.built1 ∧
  map lm2_segmentsOnLabelmap (lm3_labelmaps2D Demo.built1.2) =
    [[1; 2]; [3; 2]] ∧
  ∃ imageIds segImages,
    labelmap_imageIds Demo.env0 "seg-1" = Some imageIds ∧
    Forall2 (λ imageId segImage,
               cache_getImage Demo.env0 (Some imageId) = Ok (Some segImage))
      imageIds segImages ∧
    Forall2 (λ segImage slice,
               lm2_pixelData slice = getPixelData segImage ∧
               distinct_nonzero (lm2_pixelData slice)
                 (lm2_segmentsOnLabelmap slice) ∧
               (0 ∉ lm2_segmentsOnLabelmap slice) ∧
               lm2_segmentsOnLabelmap slice =
                 fold_left scan_step (lm2_pixelData slice) [])
      segImages (lm3_labelmaps2D Demo.built1.2).
Proof.
  split; [vm_compute; reflexivity |].
  split; [vm_compute; reflexivity |].
  apply (slice_segments_exact Demo.env0 "seg-1" Demo.built1.1 Demo.built1.2).
  vm_compute; reflexivity.
Defined.

Lemma volume_segments_union_witness :
  build_labelmap3D Demo.env0 "seg-1" = Ok Demo.built1 ∧
  lm3_segmentsOnLabelmap Demo.built1.2 = [1; 2; 3] ∧
  union_of_slices (lm3_labelmaps2D Demo.built1.2)
    (lm3_segmentsOnLabelmap Demo.built1.2).
Proof.
  split; [vm_compute; reflexivity |].
  split; [vm_compute; reflexivity |].
  apply (volume_segments_union Demo.env0 "seg-1" Demo.built1.1 Demo.built1.2).
  vm_compute; reflexivity.
Defined.

(** A label map whose only slice is blank: the volume-level list is
    empty. *)
Example blank_volume_is_empty :
  build_labelmap3D Demo.env0 "seg-blank" = Ok Demo.built_blank ∧
  lm3_segmentsOnLabelmap Demo.built_blank.2 = [].
Proof. split; vm_compute; reflexivity. Qed.

(** ** Segment metadata *)

Section Metadata.

Context (env : Env) (segmentationId : string).

Lemma segment_metadata_Ok (representations : list Representation)
  (key : string) (segment : Segment) (entry : SegmentMetadata) :
segment_metadata env segmentationId representations key segment =
  Ok entry →
∃ representation color,
  head representations = Some representation ∧
  svc_getSegmentColor env (viewportId representation) segmentationId
    (segmentIndex segment) = Ok color ∧
  entry = metadata_entry env key segment color.
Proof.
unfold segment_metadata.
destruct (head representations) as [rep |]; simpl; [| done].
destruct (svc_getSegmentColor _ _ _ _) as [color |] eqn:Hc; simpl;
  [| done].
intros [= <-]. by exists rep, color.
Qed.

(** Keys without a segment keep what the map held. *)
Lemma attach_metadata_frame (representations : list Representation)
  (entries : list (string * option Segment))
  (m0 m : gmap string SegmentMetadata) (key : string) :
attach_metadata env segmentationId representations entries m0 = Ok m →
(∀ segment, (key, Some segment) ∉ entries) →
m !! key = m0 !! key.
Proof.
revert m0. induction entries as [| [k [seg |]] rest IH]; intros m0; simpl.
- by intros [= <-].
- destruct (segment_metadata _ _ _ _ _) as [md |]; simpl; [| done].
  intros Hrest Hkey. rewrite (IH _ Hrest).
  + apply lookup_insert_ne. intros <-.
    apply (Hkey seg), list_elem_of_here.
  + intros segment Hin.
    apply (Hkey segment). by apply list_elem_of_further.
- intros Hrest Hkey. apply (IH _ Hrest).
  intros segment Hin. apply (Hkey segment).
  by apply list_elem_of_further.
Qed.

Lemma attach_metadata_lookup (representations : list Representation)
  (entries : list (string * option Segment))
  (m0 m : gmap string SegmentMetadata) (key : string)
  (segment : Segment) :
NoDup entries.*1 →
attach_metadata env segmentationId representations entries m0 = Ok m →
(key, Some segment) ∈ entries →
∃ entry,
  segment_metadata env segmentationId representations key segment =
    Ok entry ∧
  m !! key = Some entry.
Proof.
revert m0. induction entries as [| [k o] rest IH]; intros m0 Hnd Hm Hin.
- by apply elem_of_nil in Hin.
- rewrite fmap_cons in Hnd. apply NoDup_cons in Hnd as [Hk Hnd].
  apply elem_of_cons in Hin as [[= <- <-] | Hin].
  + simpl in Hm.
    destruct (segment_metadata _ _ _ _ _) as [md |]; simpl in Hm;
      [| done].
    exists md. split; [done |].
    rewrite (attach_metadata_frame _ _ _ _ key Hm).
    * apply lookup_insert_eq.
    * intros s Hs. apply Hk. apply list_elem_of_fmap.
      by exists (key, Some s).
  + simpl in Hm. destruct o as [seg |].
    * destruct (segment_metadata _ _ _ k seg) as [md |]; simpl in Hm;
        [| done].
      by apply (IH _ Hnd Hm).
    * by apply (IH _ Hnd Hm).
Qed.

(** The metadata pass goes through when the segmentation has a
    representation and the service has a colour for each of its segments. *)
Lemma attach_metadata_total (representation : Representation)
    (representations : list Representation)
    (entries : list (string * option Segment))
    (m0 : gmap string SegmentMetadata) :
  head representations = Some representation →
  (∀ key segment,
     (key, Some segment) ∈ entries →
     ∃ color,
       svc_getSegmentColor env (viewportId representation) segmentationId
         (segmentIndex segment) = Ok color) →
  ∃ m, attach_metadata env segmentationId representations entries m0 = Ok m.
Proof.
intros Hrep. revert m0.
induction entries as [| [k [seg |]] rest IH]; intros m0 Hcolors; simpl.
- by exists m0.
- destruct (Hcolors k seg) as [color Hcolor]; [apply list_elem_of_here |].
  unfold segment_metadata. rewrite Hrep. simpl. rewrite Hcolor. simpl.
  apply IH. intros key segment Hin. apply (Hcolors key segment).
  by apply list_elem_of_further.
- apply IH. intros key segment Hin. apply (Hcolors key segment).
  by apply list_elem_of_further.
Qed.

(** generateSegmentation reaches the adapter when the label map has image
    ids, every one of them is in the cache with a referenced image id the
    cache answers, and the metadata pass goes through. *)
Lemma build_labelmap3D_total (ids : list string) (segImages : list Image)
    (referencedImages : list (option Image))
    (segmentationInOHIF : OhifSegmentation)
    (representation : Representation) :
  labelmap_imageIds env segmentationId = Some ids →
  Forall2 (λ imageId segImage,
             cache_getImage env (Some imageId) = Ok (Some segImage))
    ids segImages →
  Forall2 (λ segImage referenced,
             cache_getImage env (referencedImageId segImage) = Ok referenced)
    segImages referencedImages →
  svc_getSegmentation env segmentationId = Some segmentationInOHIF →
  head (svc_getRepresentationsForSegmentation env segmentationId) =
    Some representation →
  (∀ key segment,
     (key, Some segment) ∈ segments segmentationInOHIF →
     ∃ color,
       svc_getSegmentColor env (viewportId representation) segmentationId
         (segmentIndex segment) = Ok color) →
  ∃ labelmap3D,
    build_labelmap3D env segmentationId = Ok (referencedImages, labelmap3D).
Proof.
intros Hids Hcache Hrefs Hsvc Hrep Hcolors.
unfold labelmap_imageIds in Hids. unfold build_labelmap3D.
destruct (cs_getSegmentation env segmentationId) as [[data] |];
  simpl in Hids; [| done].
destruct data as [[labelmap] |]; simpl in Hids; [| done].
destruct labelmap as [[l] |]; simpl in Hids; [| done].
simpl in Hids. subst l. simpl.
rewrite (Forall2_Ok _ _ (Some <$> segImages)).
2: { clear -Hcache. induction Hcache; constructor; auto. }
simpl. rewrite !rmap_deref_Some, rmap_total.
rewrite (Forall2_Ok _ _ _ Hrefs). simpl. rewrite Hsvc. simpl.
destruct (attach_metadata_total representation _ _ ∅ Hrep Hcolors)
  as [m ->].
simpl. by eexists.
Qed.

(** C7.  When generateSegmentation reaches the adapter, the label map it
  hands over has, for every entry of the segments object that holds a
  segment, a metadata entry under the key of that entry with: the key as
  SegmentNumber, the label of the segment, its algorithm type or
  'MANUAL', its algorithm name or 'OHIF Brush', the rounded components
  of rgb2DICOMLAB applied to the first three components of the display
  colour of the segment (in the first representation's viewport) each
  divided by 255, and the code (T-D0050, SRT, Tissue) as category and as
  type.  Keys that hold no segment get no entry. *)
Theorem segment_metadata_attached
  (referencedImages : list (option Image)) (labelmap3D : Labelmap3D)
  (segmentationInOHIF : OhifSegmentation) :
build_labelmap3D env segmentationId = Ok (referencedImages, labelmap3D) →
svc_getSegmentation env segmentationId = Some segmentationInOHIF →
NoDup (segments segmentationInOHIF).*1 →
(∀ key segment,
   (key, Some segment) ∈ segments segmentationInOHIF →
   ∃ representation color,
     head (svc_getRepresentationsForSegmentation env segmentationId) =
       Some representation ∧
     svc_getSegmentColor env (viewportId representation) segmentationId
       (segmentIndex segment) = Ok color ∧
     lm3_metadata labelmap3D !! key =
       Some (metadata_entry env key segment color)) ∧
(∀ key,
   (∀ segment, (key, Some segment) ∉ segments segmentationInOHIF) →
   lm3_metadata labelmap3D !! key = None).
Proof.
intros Hbuilt Hsvc Hnd.
destruct (build_labelmap3D_inv _ _ _ _ Hbuilt)
  as (_ & _ & _ & _ & _ & ohif & _ & _ & _ & _ & _ & _ & Hohif & Hmd & _).
rewrite Hsvc in Hohif. injection Hohif as <-. split.
- intros key segment Hin.
  destruct (attach_metadata_lookup _ _ _ _ _ _ Hnd Hmd Hin)
    as (entry & Hentry & Hlookup).
  apply segment_metadata_Ok in Hentry as (rep & color & Hrep & Hc & ->).
  by exists rep, color.
- intros key Hkey.
  by rewrite (attach_metadata_frame _ _ _ _ key Hmd Hkey).
Qed.

End Metadata.

(** The scaling of line 181 on the ends and the middle of the range of a
    colour component. *)
Example scaling_of_colour_components :
  map (λ value, PrimFloat.div value 255%float) [0; 255; 51]%float =
  [0; 1; 0x1.999999999999ap-3]%float.
Proof. vm_compute. reflexivity. Qed.

Lemma segment_metadata_attached_witness :
  lm3_metadata Demo.built1.2 !! "1" =
    Some {| SegmentNumber := "1";
            SegmentLabel := "Liver";
            SegmentAlgorithmType := "MANUAL";
            SegmentAlgorithmName := "OHIF Brush";
            RecommendedDisplayCIELabValue := [65535; 0; 0]%float;
            SegmentedPropertyCategoryCodeSequence := tissue;
            SegmentedPropertyTypeCodeSequence := tissue |} ∧
  lm3_metadata Demo.built1.2 !! "3" = None.
Proof.
  assert (NoDup (segments Demo.seg1).*1) as Hnd.
  { compute_done. }
  destruct (segment_metadata_attached Demo.env0 "seg-1"
              Demo.built1.1 Demo.built1.2 Demo.seg1
              ltac:(vm_compute; reflexivity)
              ltac:(vm_compute; reflexivity) Hnd) as [Hhas Hnone].
  split.
  - destruct (Hhas "1" Demo.liver ltac:(apply list_elem_of_here))
      as (rep & color & Hrep & Hcolor & ->).
    vm_compute in Hcolor. injection Hcolor as <-. reflexivity.
  - apply Hnone. intros segment Hin.
    unfold Demo.seg1 in Hin. simpl in Hin.
    rewrite !elem_of_cons, elem_of_nil in Hin.
    destruct Hin as [H | [H | [H | []]]]; discriminate.
Defined.

(** ** Running the actions *)

Lemma app_assoc_cons {A : Type} (w : list A) (x : A) (l : list A) :
  (w ++ [x]) ++ l = w ++ x :: l.
Proof. by rewrite <- app_assoc. Qed.

Lemma for_each_emit {A : Type} (f : A → Event) (xs : list A)
    (w : list Event) :
  for_each xs (λ x, emit (f x)) w = (Ok tt, w ++ map f xs).
Proof.
revert w. induction xs as [| x xs IH]; intros w; simpl.
- unfold ret. by rewrite app_nil_r.
- unfold bind, emit at 1. rewrite IH. by rewrite app_assoc_cons.
Qed.

Lemma for_each_nested {A B : Type} (f : A → B → Event) (xs : list A)
    (ys : list B) (w : list Event) :
  for_each xs (λ x, for_each ys (λ y, emit (f x y))) w =
  (Ok tt, w ++ concat (map (λ x, map (f x) ys) xs)).
Proof.
revert w. induction xs as [| x xs IH]; intros w; simpl.
- unfold ret. by rewrite app_nil_r.
- unfold bind at 1. rewrite for_each_emit, IH. by rewrite app_assoc.
Qed.

Lemma for_each_skip {A : Type} (xs : list A) (w : list Event) :
  for_each xs (λ _, ret tt) w = (Ok tt, w).
Proof. induction xs as [| x xs IH]; simpl; [done |]. unfold bind, ret at 1. apply IH. Qed.

Lemma emitted_app {A : Type} (m : M A) (w evs : list Event) (r : result A) :
  m w = (r, w ++ evs) → emitted m w = evs.
Proof. intros H. unfold emitted. rewrite H. simpl. apply drop_app_length. Qed.

(** generateSegmentation hands the adapter what lines 122-202 built, and
    returns what the adapter returns. *)
Lemma generateSegmentation_run (env : Env) (segmentationId : string)
    (options : Options) (w : list Event) :
  match build_labelmap3D env segmentationId with
  | Ok (referencedImages, labelmap3D) =>
      generateSegmentation env segmentationId options w =
      (adapter_generateSegmentation env referencedImages labelmap3D options,
       w ++ [EncodeSegmentation referencedImages labelmap3D options])
  | Throw e =>
      generateSegmentation env segmentationId options w = (Throw e, w)
  end.
Proof.
unfold generateSegmentation. run_monad.
by destruct (build_labelmap3D env segmentationId) as [[refs lm3] | e].
Qed.

(** ** Unknown segmentation *)

Section Unknown.

Context (env : Env) (segmentationId : string).
Hypothesis Hcs : cs_getSegmentation env segmentationId = None.
Hypothesis Hsvc : svc_getSegmentation env segmentationId = None.

Lemma build_unknown :
build_labelmap3D env segmentationId =
Throw (TypeError "representationData").
Proof. unfold build_labelmap3D. by rewrite Hcs. Qed.

Lemma generateSegmentation_unknown (options : Options) (w : list Event) :
generateSegmentation env segmentationId options w =
(Throw (TypeError "representationData"), w).
Proof. unfold generateSegmentation. run_monad. by rewrite build_unknown. Qed.

(** downloadRTSS itself never looks at what the segmentation service
  answered: with an unknown identifier it throws exactly when the RTSS
  adapter throws on [undefined]. *)
Lemma downloadRTSS_unknown_iff (w : list Event) :
(∃ e w', downloadRTSS env segmentationId w = (Throw e, w')) ↔
(∃ e, adapter_generateRTSS env None = Throw e).
Proof.
unfold downloadRTSS. rewrite Hsvc. run_monad.
destruct (adapter_generateRTSS env None) as [rtss | e]; simpl.
- split; [| intros [e He]; done].
intros (e & w' & H). exfalso. revert H.
destruct (datasetToBlob_throws env rtss); simpl; [done |].
destruct (createObjectURL_throws env _); simpl; [done |].
destruct (location_assign_throws env _); simpl; done.
- split; eauto.
Qed.


End Unknown.



(** ** storeSegmentation *)

Section StoreRun.

Context (env : Env) (segmentationId : string).
Context (dataSource : option DataSource).

(** [dataSource ?? extensionManager.getActiveDataSource()] *)
Let defaultDataSource : DataSourceRef :=
  match dataSource with
  | Some d => SourceObject d
  | None => getActiveDataSource env
  end.

(** What storeSegmentation does once the prompt is answered with
    CREATE_REPORT, in terms of the selection of the data source and of the
    run of generateSegmentation. *)
Lemma storeSegmentation_run (segmentation : OhifSegmentation)
    (response : PromptResponse) (w : list Event) :
  svc_getSegmentation env segmentationId = Some segmentation →
  createReportDialogPrompt env = Ok response →
  prompt_action response = CREATE_REPORT env →
  let log e := ConsoleDebug "Error storing segmentation:" e in
  let missing := Error "Error during segmentation generation" in
  let asked := w ++ [ShowReportDialog "Store Segmentation"] in
  storeSegmentation env segmentationId dataSource w =
  match selected_data_source env (prompt_dataSourceName response)
          defaultDataSource with
  | Throw e => (Throw e, asked ++ [log e])
  | Ok selected =>
      match generateSegmentation env segmentationId
              (store_options segmentation response) asked with
      | (Ok (Some {| dataset := Some report |}), w1) =>
          match store_of selected with
          | Throw e => (Throw e, w1 ++ [log e])
          | Ok source =>
              match store_dicom source report with
              | Some e => (Throw e, w1 ++ [log e])
              | None =>
                  let stored :=
                    with_wadoRoot report (config_wadoRoot source) in
                  (Ok (Some stored),
                   w1 ++ [StoreDicom (source_name source) report;
                          AddInstances [stored] true])
              end
          end
      | (Ok _, w1) => (Throw missing, w1 ++ [log missing])
      | (Throw e, w1) => (Throw e, w1 ++ [log e])
      end
  end.
Proof.
intros Hsvc Hprompt Haction log missing asked. subst log missing asked.
unfold storeSegmentation. rewrite Hsvc. run_monad. rewrite Hprompt.
rewrite decide_True by done. unfold store_body.
fold (store_options segmentation response). fold defaultDataSource.
run_monad.
destruct (selected_data_source env _ _) as [selected | e0]; simpl;
  [| done].
destruct (generateSegmentation env segmentationId _ _)
  as [[[[[report |] md] |] | e] w1]; simpl; try done.
destruct (store_of selected) as [source | e]; simpl; [| done].
destruct (store_dicom source report); simpl; [done |].
by rewrite !app_assoc_cons.
Qed.

(** The code takes the data source the user selected. *)
Lemma user_selected_taken (response : PromptResponse)
    (source : DataSource) :
  user_selected env dataSource response source →
  selected_data_source env (prompt_dataSourceName response)
    defaultDataSource = Ok (SourceObject source).
Proof.
unfold selected_data_source, defaultDataSource.
intros [name src others Hname Hne Hlookup
       | src [Hnone | Hnone] Hpassed
       | src [Hnone | Hnone] Hpassed Hactive].
- rewrite Hname, decide_False by done. by rewrite Hlookup.
- by rewrite Hnone, Hpassed.
- rewrite Hnone, Hpassed. by rewrite decide_True.
- by rewrite Hnone, Hpassed, Hactive.
- rewrite Hnone, Hpassed, Hactive. by rewrite decide_True.
Qed.

(** A data source object the code takes is the one the user selected. *)
Lemma taken_user_selected (response : PromptResponse)
    (source : DataSource) :
  selected_data_source env (prompt_dataSourceName response)
    defaultDataSource = Ok (SourceObject source) →
  user_selected env dataSource response source.
Proof.
unfold selected_data_source, defaultDataSource.
assert (no_source_named response →
        match dataSource with
        | Some d => SourceObject d
        | None => getActiveDataSource env
        end = SourceObject source →
        user_selected env dataSource response source) as Hdefault.
{ intros Hnone Hsource. destruct dataSource as [d |] eqn:Hpassed.
  - injection Hsource as ->. by apply selected_passed.
  - by apply selected_active. }
destruct (prompt_dataSourceName response) as [name |] eqn:Hname.
- case_decide as Hempty.
  + subst name. intros [= Hsource]. apply Hdefault; [by right | done].
  + destruct (getDataSources env name) as [[| src others] |] eqn:Hlookup;
      simpl; [done | | done].
    intros [= ->]. by eapply selected_by_name.
- intros [= Hsource]. apply Hdefault; [by left | done].
Qed.

Lemma named_source_known_selects (response : PromptResponse) :
  named_source_known env response →
  ∃ selected,
    selected_data_source env (prompt_dataSourceName response)
      defaultDataSource = Ok selected.
Proof.
intros Hknown. unfold selected_data_source.
destruct (prompt_dataSourceName response) as [name |] eqn:Hname;
  [| by eexists].
case_decide as Hempty; [by eexists |].
destruct (getDataSources env name) as [sources |] eqn:Hlookup.
- by eexists.
- by destruct (Hknown name Hname Hempty).
Qed.

End StoreRun.

Section Store.

Context (env : Env) (segmentationId : string).
Context (dataSource : option DataSource).
Context (segmentation : OhifSegmentation) (response : PromptResponse).
Hypothesis Hfound : svc_getSegmentation env segmentationId = Some segmentation.
Hypothesis Hprompt : createReportDialogPrompt env = Ok response.

(** C9.  When the segmentation exists and the prompt is answered with
  anything but CREATE_REPORT, storeSegmentation resolves to undefined
  without throwing, and all it has done is show the dialog: the
  segmentation adapter is not called, nothing is sent to a data source,
  nothing is added to the DICOM metadata store. *)
Theorem store_declined_does_nothing (w : list Event) :
prompt_action response ≠ CREATE_REPORT env →
storeSegmentation env segmentationId dataSource w =
(Ok None, w ++ [ShowReportDialog "Store Segmentation"]).
Proof.
intros Hne. unfold storeSegmentation. rewrite Hfound. run_monad.
rewrite Hprompt. by rewrite decide_False.
Qed.

(** C6.  When the prompt is answered with CREATE_REPORT: if generation
    yields a dataset and the store call of the data source the user
    selected goes through, storeSegmentation resolves to that dataset with
    wadoRoot set to the wadoRoot of the configuration of that data source,
    after storing the dataset there and adding the augmented dataset to the
    DICOM metadata store; if generation throws, or the store call throws,
    storeSegmentation throws the same error (after logging it) and the
    metadata store is not touched.  The selected data source is the first
    one configured under the name chosen in the prompt and, with no name
    chosen, the one passed to the action or else the active one. *)
Theorem store_returns_augmented_or_rethrows (w w1 : list Event)
    (generated : result (option GeneratedSegmentation)) :
  prompt_action response = CREATE_REPORT env →
  generateSegmentation env segmentationId
    (store_options segmentation response)
    (w ++ [ShowReportDialog "Store Segmentation"]) = (generated, w1) →
  (∀ data naturalizedReport source,
     generated = Ok (Some data) →
     dataset data = Some naturalizedReport →
     user_selected env dataSource response source →
     store_dicom source naturalizedReport = None →
     let stored :=
       with_wadoRoot naturalizedReport (config_wadoRoot source) in
     wadoRoot stored = config_wadoRoot source ∧
     ds_body stored = ds_body naturalizedReport ∧
     storeSegmentation env segmentationId dataSource w =
     (Ok (Some stored),
      w1 ++ [StoreDicom (source_name source) naturalizedReport;
             AddInstances [stored] true])) ∧
  (∀ e,
     generated = Throw e →
     named_source_known env response →
     storeSegmentation env segmentationId dataSource w =
     (Throw e, w1 ++ [ConsoleDebug "Error storing segmentation:" e])) ∧
  (∀ data naturalizedReport source e,
     generated = Ok (Some data) →
     dataset data = Some naturalizedReport →
     user_selected env dataSource response source →
     store_dicom source naturalizedReport = Some e →
     storeSegmentation env segmentationId dataSource w =
     (Throw e, w1 ++ [ConsoleDebug "Error storing segmentation:" e])) ∧
  (generated = Ok None ∨
   (∃ data, generated = Ok (Some data) ∧ dataset data = None) →
   named_source_known env response →
   let e := Error "Error during segmentation generation" in
   storeSegmentation env segmentationId dataSource w =
   (Throw e, w1 ++ [ConsoleDebug "Error storing segmentation:" e])).
Proof.
intros Hact Hgen.
pose proof (storeSegmentation_run env segmentationId dataSource
              segmentation response w Hfound Hprompt Hact) as Hrun.
simpl in Hrun. rewrite Hgen in Hrun. split_and!.
- intros data report source -> Hds Hsel Hstore stored.
  split_and!; [done | done |]. rewrite Hrun.
  rewrite (user_selected_taken _ _ _ _ Hsel).
  destruct data as [ds md]. simpl in Hds. subst ds. simpl.
  by rewrite Hstore.
- intros e -> Hknown. rewrite Hrun.
  by destruct (named_source_known_selects env dataSource response Hknown)
    as [selected ->].
- intros data report source e -> Hds Hsel Hstore. rewrite Hrun.
  rewrite (user_selected_taken _ _ _ _ Hsel).
  destruct data as [ds md]. simpl in Hds. subst ds. simpl.
  by rewrite Hstore.
- intros Hnone Hknown e. rewrite Hrun.
  destruct (named_source_known_selects env dataSource response Hknown)
    as [selected ->].
  destruct Hnone as [-> | ([ds md] & -> & Hds)]; [done |].
  simpl in Hds. by subst ds.
Qed.

End Store.

Lemma store_declined_does_nothing_witness :
  storeSegmentation (Demo.env (Ok Demo.cancel) (Some ["default"])) "seg-1"
    None [] =
  (Ok None, [] ++ [ShowReportDialog "Store Segmentation"]).
Proof.
apply (store_declined_does_nothing
         (Demo.env (Ok Demo.cancel) (Some ["default"])) "seg-1" None
         Demo.seg1 Demo.cancel).
- vm_compute; reflexivity.
- vm_compute; reflexivity.
- vm_compute. discriminate.
Defined.

(** The user picks ["pacs"] in the prompt while the read-only archive is
    passed to the action: the dataset goes to ["pacs"] and gets its
    wadoRoot. *)
Lemma store_returns_augmented_or_rethrows_witness :
  user_selected Demo.env0 (Some Demo.readonly) Demo.create_report Demo.pacs ∧
  storeSegmentation Demo.env0 "seg-1" (Some Demo.readonly) [] =
  (Ok (Some {| ds_body := "SEG Liver SEG";
               wadoRoot := Some "https://pacs.example.org/wado" |}),
   Demo.generated1.2 ++
   [StoreDicom "pacs" {| ds_body := "SEG Liver SEG"; wadoRoot := None |};
    AddInstances
      [{| ds_body := "SEG Liver SEG";
          wadoRoot := Some "https://pacs.example.org/wado" |}] true]).
Proof.
assert (user_selected Demo.env0 (Some Demo.readonly) Demo.create_report
          Demo.pacs) as Hselected.
{ apply (selected_by_name _ _ _ "pacs" Demo.pacs []).
  - reflexivity.
  - discriminate.
  - vm_compute; reflexivity. }
split; [exact Hselected |].
destruct (store_returns_augmented_or_rethrows Demo.env0 "seg-1"
            (Some Demo.readonly) Demo.seg1 Demo.create_report
            ltac:(vm_compute; reflexivity) ltac:(vm_compute; reflexivity)
            [] Demo.generated1.2 Demo.generated1.1
            ltac:(vm_compute; reflexivity) ltac:(vm_compute; reflexivity))
  as (Hstored & _).
destruct (Hstored Demo.stored_data
            {| ds_body := "SEG Liver SEG"; wadoRoot := None |} Demo.pacs
            ltac:(vm_compute; reflexivity) ltac:(vm_compute; reflexivity)
            Hselected ltac:(vm_compute; reflexivity))
  as (_ & _ & Hrun).
exact Hrun.
Defined.

(** The same prompt with the read-only archive selected: the store call
    throws and the action throws its error. *)
Example store_readonly_rethrows :
  ∃ trace,
    storeSegmentation
      (Demo.env (Ok Demo.create_report_readonly) None) "seg-1" None [] =
    (Throw (Error "403 Forbidden"),
     trace ++ [ConsoleDebug "Error storing segmentation:"
                 (Error "403 Forbidden")]) ∧
    ∀ ev, ev ∈ trace →
          ∀ instances made, ev ≠ AddInstances instances made.
Proof.
eexists [_; _]. split; [vm_compute; reflexivity |].
intros ev Hev instances made ->.
rewrite !elem_of_cons, elem_of_nil in Hev.
destruct Hev as [H | [H | []]]; discriminate.
Qed.

(** ** downloadRTSS *)

Section Rtss.

Context (env : Env) (segmentationId : string) (rtss : string).
Hypothesis Hrtss :
  adapter_generateRTSS env (svc_getSegmentation env segmentationId) = Ok rtss.

(** Once the adapter has produced the structure set, downloadRTSS returns
    normally whatever the three calls of its [try] block do. *)
Lemma downloadRTSS_returns (w : list Event) :
  ∃ events,
    downloadRTSS env segmentationId w =
    (Ok tt,
     w ++ EncodeRTSS (svc_getSegmentation env segmentationId) :: events).
Proof.
unfold downloadRTSS. run_monad. rewrite Hrtss.
destruct (datasetToBlob_throws env rtss) as [e |]; simpl.
{ eexists [_]. by rewrite app_assoc_cons. }
destruct (createObjectURL_throws env _) as [e |]; simpl.
{ eexists [_]. by rewrite app_assoc_cons. }
destruct (location_assign_throws env _) as [e |]; simpl.
- eexists [_; _]. by rewrite !app_assoc_cons.
- eexists [_; _]. by rewrite !app_assoc_cons.
Qed.

(** C10.  In downloadRTSS an error thrown by datasetToBlob, by
    URL.createObjectURL or by window.location.assign is caught and passed to
    console.warn, and the action returns normally; the caller sees no error
    and the browser has not navigated: no LocationAssign is in the trace. *)
Theorem rtss_errors_only_logged (w : list Event) (e : JsError) :
  let segmentations := svc_getSegmentation env segmentationId in
  let blob := DicomBlob rtss in
  (datasetToBlob_throws env rtss = Some e →
   downloadRTSS env segmentationId w =
   (Ok tt, w ++ [EncodeRTSS segmentations; ConsoleWarn e])) ∧
  (datasetToBlob_throws env rtss = None →
   createObjectURL_throws env blob = Some e →
   downloadRTSS env segmentationId w =
   (Ok tt, w ++ [EncodeRTSS segmentations; ConsoleWarn e])) ∧
  (datasetToBlob_throws env rtss = None →
   createObjectURL_throws env blob = None →
   location_assign_throws env blob = Some e →
   downloadRTSS env segmentationId w =
   (Ok tt, w ++ [EncodeRTSS segmentations; CreateObjectURL blob;
                 ConsoleWarn e])).
Proof.
intros segmentations blob. subst segmentations blob.
unfold downloadRTSS. run_monad. rewrite Hrtss. split_and!.
- intros ->. simpl. by rewrite app_assoc_cons.
- intros -> ->. simpl. by rewrite app_assoc_cons.
- intros -> -> ->. simpl. by rewrite !app_assoc_cons.
Qed.

End Rtss.

Lemma rtss_errors_only_logged_witness :
  downloadRTSS Demo.env0 "seg-2" [] =
  (Ok tt,
   [] ++ [EncodeRTSS (svc_getSegmentation Demo.env0 "seg-2");
          ConsoleWarn (Error "cannot serialise")]).
Proof.
refine (proj1 (rtss_errors_only_logged Demo.env0 "seg-2" "RTSS Broken" _
                 [] (Error "cannot serialise")) _).
- vm_compute; reflexivity.
- vm_compute; reflexivity.
Defined.

(** ** Tool configuration *)

Section Tools.

Context (env : Env).

Lemma setBrushSize_all_tools (value : JsValue) (toolGroupIds : list string)
    (w : list Event) :
  getToolGroupIds env = Some toolGroupIds →
  setBrushSize env value (Defined []) w =
  (Ok tt,
   w ++ map (λ toolGroupId,
               SetBrushSizeForToolGroup toolGroupId (Number env value) None)
          toolGroupIds).
Proof. intros H. unfold setBrushSize. rewrite H. apply for_each_emit. Qed.

Lemma setBrushSize_named_tools (value : JsValue) (toolGroupIds : list string)
    (toolName : string) (toolNames : list string) (w : list Event) :
  getToolGroupIds env = Some toolGroupIds →
  setBrushSize env value (Defined (toolName :: toolNames)) w =
  (Ok tt,
   w ++ concat
          (map (λ toolGroupId,
                  map (λ name,
                         SetBrushSizeForToolGroup toolGroupId
                           (Number env value) (Some name))
                    (toolName :: toolNames))
             toolGroupIds)).
Proof.
intros H. unfold setBrushSize. rewrite H.
apply (for_each_nested
         (λ toolGroupId name,
            SetBrushSizeForToolGroup toolGroupId (Number env value)
              (Some name))).
Qed.

Lemma setBrushSize_no_names (value : JsValue)
    (toolNames : Nullable (list string)) (w : list Event) :
  toolNames = Undefined ∨ toolNames = Null →
  setBrushSize env value toolNames w = (Ok tt, w).
Proof.
intros Hnames. unfold setBrushSize.
destruct (getToolGroupIds env) as [ids |]; [| done].
destruct Hnames as [-> | ->]; apply for_each_skip.
Qed.

(** C8.  setBrushSize calls setBrushSizeForToolGroup without a tool name,
    which sets the size for every tool of the group, only when toolNames is
    an array and is empty, and then once per tool group; when toolNames is
    left out or undefined it makes no call at all, so whatever the tools
    library keeps per tool group stays as it was.  With no tool group
    (getToolGroupIds gives an empty array or nothing) neither setBrushSize
    nor setThresholdRange makes a call. *)
Theorem brush_size_and_threshold_frame (value : JsValue)
    (range : list float) (w : list Event) :
  (∀ toolNames toolGroupId brushSize,
     SetBrushSizeForToolGroup toolGroupId brushSize None
       ∈ emitted (setBrushSize env value toolNames) w →
     toolNames = Defined []) ∧
  (∀ toolGroupIds,
     getToolGroupIds env = Some toolGroupIds →
     setBrushSize env value (Defined []) w =
     (Ok tt,
      w ++ map (λ toolGroupId,
                  SetBrushSizeForToolGroup toolGroupId (Number env value)
                    None)
             toolGroupIds)) ∧
  (setBrushSize env value Undefined w = (Ok tt, w) ∧
   ∀ (S : Type) (handler : Event → S → S) (s : S),
     replay handler (emitted (setBrushSize env value Undefined) w) s = s) ∧
  (getToolGroupIds env = None ∨ getToolGroupIds env = Some [] →
   ∀ toolNames,
     setBrushSize env value toolNames w = (Ok tt, w) ∧
     setThresholdRange env range toolNames w = (Ok tt, w)).
Proof.
split_and!.
- intros toolNames toolGroupId brushSize Hin.
  destruct (getToolGroupIds env) as [ids |] eqn:Hids.
  + destruct toolNames as [| | [| name names]]; [| | done |].
    * rewrite (emitted_app _ w [] (Ok tt)) in Hin;
        [by apply elem_of_nil in Hin |].
      rewrite app_nil_r. apply setBrushSize_no_names. by left.
    * rewrite (emitted_app _ w [] (Ok tt)) in Hin;
        [by apply elem_of_nil in Hin |].
      rewrite app_nil_r. apply setBrushSize_no_names. by right.
    * rewrite (emitted_app _ w _ (Ok tt)
                 (setBrushSize_named_tools value ids name names w Hids))
        in Hin.
      exfalso. clear Hids. induction ids as [| id ids IH].
      { by apply elem_of_nil in Hin. }
      cbn [map concat] in Hin. rewrite elem_of_app in Hin.
      destruct Hin as [Hin | Hin]; [| by apply IH].
      apply list_elem_of_In in Hin.
      apply (in_map_iff
               (λ n, SetBrushSizeForToolGroup id (Number env value) (Some n))
               (name :: names)) in Hin as (n & Heq & _).
      discriminate.
  + unfold emitted, setBrushSize in Hin. rewrite Hids in Hin. simpl in Hin.
    rewrite drop_all in Hin. by apply elem_of_nil in Hin.
- intros ids Hids. by apply setBrushSize_all_tools.
- apply setBrushSize_no_names. by left.
- intros S handler s.
  rewrite (emitted_app _ w [] (Ok tt)); [reflexivity |].
  rewrite app_nil_r. apply setBrushSize_no_names. by left.
- intros Hnone toolNames. unfold setBrushSize, setThresholdRange.
  destruct Hnone as [-> | ->]; done.
Qed.

End Tools.

Lemma brush_size_and_threshold_frame_witness :
  setBrushSize Demo.env0 (VNumber 25) (Defined []) [] =
    (Ok tt,
     [SetBrushSizeForToolGroup "default" 25 None;
      SetBrushSizeForToolGroup "mpr" 25 None]) ∧
  setBrushSize Demo.env0 (VNumber 25) Undefined [] = (Ok tt, []) ∧
  setThresholdRange (Demo.env (Ok Demo.cancel) (Some []))
    [100; 400]%float Undefined [] = (Ok tt, []).
Proof.
destruct (brush_size_and_threshold_frame Demo.env0 (VNumber 25) [] [])
  as (_ & Hall & [Hundefined _] & _).
destruct (brush_size_and_threshold_frame
            (Demo.env (Ok Demo.cancel) (Some [])) (VNumber 25)
            [100; 400]%float [])
  as (_ & _ & _ & Hnone).
split_and!.
- apply (Hall ["default"; "mpr"]). vm_compute; reflexivity.
- exact Hundefined.
- apply (Hnone (or_intror eq_refl) Undefined).
Defined.

(** With tool names given, every call names its tool; with the default
    threshold tools and two tool groups, setThresholdRange configures each
    of the four tools in each group. *)
Example tool_configuration_runs :
  setBrushSize Demo.env0 (VNumber 25) (Defined ["CircularBrush"]) [] =
    (Ok tt,
     [SetBrushSizeForToolGroup "default" 25 (Some "CircularBrush");
      SetBrushSizeForToolGroup "mpr" 25 (Some "CircularBrush")]) ∧
  length (emitted (setThresholdRange Demo.env0 [100; 400]%float Undefined) [])
    = 8%nat.
Proof. split; vm_compute; reflexivity. Qed.

(** ** downloadSegmentationPdf *)

Lemma pretty_zero : pretty 0%nat = "0".
Proof. vm_compute. reflexivity. Qed.

Section Pdf.

Context (env : Env) (segmentationId : string) (viewportId : option string).

Lemma text_without_metadata (segmentationInOHIF : OhifSegmentation) :
  text_content segmentationInOHIF [] =
  join_lines
    [ "Segmentation: " +:+
        str_or (label segmentationInOHIF) "Unnamed Segmentation";
      "Segments: 0";
      "No segment metadata available" ].
Proof. unfold text_content. simpl length. by rewrite pretty_zero. Qed.

Lemma string_app_assoc (a b c : string) :
  (a +:+ b) +:+ c = a +:+ (b +:+ c).
Proof.
induction a as [| x a IH]; [done |].
change (String x ((a +:+ b) +:+ c) = String x (a +:+ (b +:+ c))).
by rewrite IH.
Qed.

Lemma join_lines_three (l1 l2 l3 : string) :
  join_lines [l1; l2; l3] = (l1 +:+ newline +:+ l2 +:+ newline) +:+ l3.
Proof. cbn [join_lines]. by rewrite !string_app_assoc. Qed.

(** C4.  When the segmentation is found and valid, the viewport element is
    resolved and html2canvas yields a canvas, while the call of
    generateSegmentation throws (and the PDF library and
    URL.createObjectURL do their part): downloadSegmentationPdf completes;
    it logs the generation error, builds a PDF of one page, of the size of
    the canvas, with the captured image embedded and drawn on it and a text
    block that ends with 'No segment metadata available' under the lines
    for the segmentation label and 'Segments: 0', and triggers the download
    of that PDF through a link. *)
Theorem pdf_export_tolerates_generation_failure
    (segmentationInOHIF : OhifSegmentation) (element : string)
    (canvas : Canvas) (e : JsError) (w w1 : list Event) :
  svc_getSegmentation env segmentationId = Some segmentationInOHIF →
  has_imageIds (cs_getSegmentation env segmentationId) = true →
  querySelector env (target_selector env viewportId) = Some element →
  html2canvas env element = Ok canvas →
  generateSegmentation env segmentationId no_options w = (Throw e, w1) →
  pdf_create_throws env = None →
  pdf_embedPng_throws env (toDataURL_png canvas) = None →
  (∀ doc, pdf_save_throws env doc = None) →
  (∀ blob, createObjectURL_throws env blob = None) →
  ∃ text,
    text =
      ("Segmentation: " +:+
         str_or (label segmentationInOHIF) "Unnamed Segmentation" +:+
       newline +:+ "Segments: 0" +:+ newline) +:+
      "No segment metadata available" ∧
    let pdf :=
      PdfBlob {| doc_pages := [page_without_metadata canvas text];
                 doc_images := [toDataURL_png canvas] |} in
    let link :=
      {| link_download :=
           str_or (label segmentationInOHIF) "segmentation" +:+ ".pdf";
         link_href := pdf |} in
    downloadSegmentationPdf env segmentationId viewportId w =
    (Ok tt,
     w1 ++ [ConsoleError "Error generating segmentation:" e;
            CreateObjectURL pdf; AppendChild link; Click link;
            RemoveChild link; SetTimeoutRevoke pdf 100]).
Proof.
intros Hsvc Hcs Hel Hcanvas Hgen Hcreate Hembed Hsave Hurl.
eexists. split; [reflexivity |].
unfold downloadSegmentationPdf, pdf_body. rewrite Hsvc. run_monad.
rewrite Hcs. simpl. fold (target_selector env viewportId).
rewrite Hel, Hcanvas, Hgen, Hcreate. simpl. rewrite Hembed. simpl.
rewrite Hsave. simpl. rewrite Hurl. simpl.
rewrite text_without_metadata, join_lines_three.
by rewrite <- !app_assoc.
Qed.

(** C5.  downloadSegmentationPdf aborts when the viewport element is not
    found or html2canvas throws: with the segmentation found and valid it
    throws that very error, and all it has done is log it, so no PDF is
    built, no object URL made and no link clicked; whatever the state of the
    segmentation, it throws and emits nothing but console errors.
    Conversely, when it completes, every step but the generation of the
    segmentation has gone through: generation is the only step whose
    failure it survives. *)
Theorem pdf_export_aborts_without_capture (w : list Event) :
  (∀ segmentationInOHIF err,
     svc_getSegmentation env segmentationId = Some segmentationInOHIF →
     has_imageIds (cs_getSegmentation env segmentationId) = true →
     (querySelector env (target_selector env viewportId) = None ∧
      err = Error "Viewport element not found") ∨
     (∃ element,
        querySelector env (target_selector env viewportId) = Some element ∧
        html2canvas env element = Throw err) →
     downloadSegmentationPdf env segmentationId viewportId w =
     (Throw err,
      w ++ [ConsoleError "Error generating segmentation PDF:" err])) ∧
  (querySelector env (target_selector env viewportId) = None ∨
   (∃ element err,
      querySelector env (target_selector env viewportId) = Some element ∧
      html2canvas env element = Throw err) →
   ∃ err logs,
     downloadSegmentationPdf env segmentationId viewportId w =
     (Throw err, w ++ logs) ∧
     Forall is_console_error logs) ∧
  (∀ w',
     downloadSegmentationPdf env segmentationId viewportId w = (Ok tt, w') →
     ∃ segmentationInOHIF element canvas doc,
       svc_getSegmentation env segmentationId = Some segmentationInOHIF ∧
       has_imageIds (cs_getSegmentation env segmentationId) = true ∧
       querySelector env (target_selector env viewportId) = Some element ∧
       html2canvas env element = Ok canvas ∧
       pdf_create_throws env = None ∧
       pdf_embedPng_throws env (toDataURL_png canvas) = None ∧
       pdf_save_throws env doc = None ∧
       createObjectURL_throws env (PdfBlob doc) = None).
Proof.
split_and!.
- intros seg err Hsvc Hcs Hfail.
  unfold downloadSegmentationPdf, pdf_body. rewrite Hsvc. run_monad.
  rewrite Hcs. simpl. fold (target_selector env viewportId).
  destruct Hfail as [[-> ->] | (element & -> & Hcanvas)]; [done |].
  by rewrite Hcanvas.
- intros Hfail.
  unfold downloadSegmentationPdf, pdf_body. run_monad.
  destruct (svc_getSegmentation env segmentationId) as [seg |]; simpl.
  2: { eexists _, [_]. split; [reflexivity |].
       repeat constructor. by eexists _, _. }
  destruct (has_imageIds _); simpl.
  2: { eexists _, [_; _]. split; [by rewrite !app_assoc_cons |].
       repeat constructor; by eexists _, _. }
  fold (target_selector env viewportId).
  destruct Hfail as [-> | (element & err & -> & ->)].
  + eexists _, [_]. split; [reflexivity |].
    repeat constructor. by eexists _, _.
  + eexists _, [_]. split; [reflexivity |].
    repeat constructor. by eexists _, _.
- intros w'. unfold downloadSegmentationPdf, pdf_body. run_monad.
  destruct (svc_getSegmentation env segmentationId) as [seg |]; simpl;
    [| done].
  destruct (has_imageIds _) eqn:Hcs; simpl; [| done].
  fold (target_selector env viewportId).
  destruct (querySelector env _) as [element |] eqn:Hel; simpl; [| done].
  destruct (html2canvas env element) as [canvas |] eqn:Hcanvas; simpl;
    [| done].
  destruct (generateSegmentation env segmentationId no_options w)
    as [[generated | e] w1]; simpl.
  + destruct (pdf_create_throws env) eqn:Hcreate; simpl; [done |].
    destruct (pdf_embedPng_throws env _) eqn:Hembed; simpl; [done |].
    destruct generated as [generated |]; simpl; [| done].
    destruct (pdf_save_throws env _) eqn:Hsave; simpl; [done |].
    destruct (createObjectURL_throws env _) eqn:Hurl; simpl; [done |].
    intros _. eexists seg, element, canvas, _. by split_and!.
  + destruct (pdf_create_throws env) eqn:Hcreate; simpl; [done |].
    destruct (pdf_embedPng_throws env _) eqn:Hembed; simpl; [done |].
    destruct (pdf_save_throws env _) eqn:Hsave; simpl; [done |].
    destruct (createObjectURL_throws env _) eqn:Hurl; simpl; [done |].
    intros _. eexists seg, element, canvas, _. by split_and!.
Qed.

End Pdf.

Lemma pdf_export_tolerates_generation_failure_witness :
  generateSegmentation Demo.env0 "seg-2" no_options [] =
    (Throw (TypeError "referencedImageId"), []) ∧
  ∃ text,
    text =
      ("Segmentation: " +:+ "Broken" +:+ newline +:+ "Segments: 0" +:+
       newline) +:+ "No segment metadata available" ∧
    let pdf :=
      PdfBlob {| doc_pages := [page_without_metadata Demo.canvas text];
                 doc_images := [toDataURL_png Demo.canvas] |} in
    let link := {| link_download := "Broken.pdf"; link_href := pdf |} in
    downloadSegmentationPdf Demo.env0 "seg-2" None [] =
    (Ok tt,
     [] ++ [ConsoleError "Error generating segmentation:"
              (TypeError "referencedImageId");
            CreateObjectURL pdf; AppendChild link; Click link;
            RemoveChild link; SetTimeoutRevoke pdf 100]).
Proof.
split; [vm_compute; reflexivity |].
apply (pdf_export_tolerates_generation_failure Demo.env0 "seg-2" None
         Demo.seg2 "element-1" Demo.canvas (TypeError "referencedImageId")
         [] []).
- vm_compute; reflexivity.
- vm_compute; reflexivity.
- vm_compute; reflexivity.
- vm_compute; reflexivity.
- vm_compute; reflexivity.
- vm_compute; reflexivity.
- vm_compute; reflexivity.
- intros doc. reflexivity.
- intros blob. reflexivity.
Defined.

Lemma pdf_export_aborts_without_capture_witness :
  downloadSegmentationPdf Demo.env0 "seg-1" (Some "viewport-9") [] =
    (Throw (Error "Viewport element not found"),
     [] ++ [ConsoleError "Error generating segmentation PDF:"
              (Error "Viewport element not found")]) ∧
  downloadSegmentationPdf Demo.env0 "seg-1" (Some "viewport-2") [] =
    (Throw (Error "Unable to render element"),
     [] ++ [ConsoleError "Error generating segmentation PDF:"
              (Error "Unable to render element")]).
Proof.
split.
- apply (proj1 (pdf_export_aborts_without_capture Demo.env0 "seg-1"
                  (Some "viewport-9") []) Demo.seg1).
  + vm_compute; reflexivity.
  + vm_compute; reflexivity.
  + left. split; vm_compute; reflexivity.
- apply (proj1 (pdf_export_aborts_without_capture Demo.env0 "seg-1"
                  (Some "viewport-2") []) Demo.seg1).
  + vm_compute; reflexivity.
  + vm_compute; reflexivity.
  + right. exists "element-2". split; vm_compute; reflexivity.
Defined.

(** With generation going through, the text block lists the segments the
    adapter reports. *)
Example pdf_with_metadata :
  ∃ trace pdf link,
    downloadSegmentationPdf Demo.env0 "seg-1" None [] =
      (Ok tt,
       trace ++ [CreateObjectURL pdf; AppendChild link; Click link;
                 RemoveChild link; SetTimeoutRevoke pdf 100]) ∧
    link_download link = "Liver study.pdf" ∧
    link_href link = pdf.
Proof. eexists [_], _, _. split_and!; vm_compute; reflexivity. Qed.

(** * Further properties of the code *)

(** ** The scan of a pixel buffer and the set of a volume *)

Section Scan.

(** X1.  Which segments a slice has does not depend on where in the buffer
    their pixels are: buffers that are permutations of each other give
    segment lists that are permutations of each other. *)
Theorem scan_pixels_permutation (pixelData pixelData' : list Z) :
  pixelData ≡ₚ pixelData' →
  scan_pixels pixelData ≡ₚ scan_pixels pixelData'.
Proof.
intros Hperm. apply NoDup_Permutation; try apply scan_pixels_NoDup.
intros v. rewrite !scan_pixels_elem. by rewrite Hperm.
Qed.

(** X2.  A slice gets an empty segment list exactly when its buffer holds
    nothing but zeros (an empty buffer included). *)
Theorem scan_pixels_empty_iff (pixelData : list Z) :
  scan_pixels pixelData = [] ↔ Forall (λ v, v = 0) pixelData.
Proof.
rewrite Forall_forall. split.
- intros Hnil v Hv. destruct (decide (v = 0)) as [| Hnz]; [done |].
  assert (v ∈ scan_pixels pixelData) as Hin by by apply scan_pixels_elem.
  rewrite Hnil in Hin. by apply elem_of_nil in Hin.
- intros Hzero. destruct (scan_pixels pixelData) as [| v l] eqn:Hscan;
    [done | exfalso].
  assert (v ∈ scan_pixels pixelData) as Hin
    by (rewrite Hscan; apply list_elem_of_here).
  apply scan_pixels_elem in Hin as [Hin Hnz]. by apply Hnz, Hzero.
Qed.

Lemma scan_step_absorb (a s : list Z) (y : Z) :
  a ++ filter (λ v, v ∉ a) (scan_step s y) =
  scan_step (a ++ filter (λ v, v ∉ a) s) y.
Proof.
unfold scan_step. case_decide as Hy; [| done].
unfold Set_add. destruct (decide (y ∈ a)) as [Ha | Ha].
- rewrite (decide_True (P := y ∈ a ++ _)).
  2: { apply elem_of_app. by left. }
  case_decide; [done |]. rewrite filter_app, filter_cons_False by tauto.
  by rewrite filter_nil, app_nil_r.
- destruct (decide (y ∈ s)) as [Hs | Hs].
  + rewrite (decide_True (P := y ∈ a ++ _)); [done |].
    apply elem_of_app. right. by apply list_elem_of_filter.
  + rewrite (decide_False (P := y ∈ a ++ _)).
    2: { rewrite elem_of_app, list_elem_of_filter. tauto. }
    rewrite filter_app, filter_cons_True by done.
    by rewrite filter_nil, app_assoc.
Qed.

Lemma fold_scan_absorb (pixelData a s : list Z) :
  fold_left scan_step pixelData (a ++ filter (λ v, v ∉ a) s) =
  a ++ filter (λ v, v ∉ a) (fold_left scan_step pixelData s).
Proof.
revert s. induction pixelData as [| y px IH]; intros s; simpl; [done |].
by rewrite <- IH, scan_step_absorb.
Qed.

(** X3.  Segments are listed in the order in which they first occur in the
    buffer: a leading zero is skipped, and a leading nonzero value heads
    the list, followed by the scan of the rest without that value. *)
Theorem scan_pixels_first_occurrence (segment : Z) (pixelData : list Z) :
  scan_pixels (segment :: pixelData) =
  if decide (segment = 0) then scan_pixels pixelData
  else segment :: filter (λ v, v ≠ segment) (scan_pixels pixelData).
Proof.
unfold scan_pixels. simpl. unfold scan_step at 2.
destruct (decide (segment = 0)) as [-> | Hnz].
- by rewrite decide_False by tauto.
- rewrite decide_True by done. unfold Set_add.
  rewrite decide_False by apply not_elem_of_nil. simpl.
  pose proof (fold_scan_absorb pixelData [segment] []) as H.
  rewrite filter_nil, app_nil_r in H. rewrite H. simpl. f_equal.
  apply list_filter_iff. intros v. rewrite list_elem_of_singleton. tauto.
Qed.

Lemma fold_Set_add_fresh (a s : list Z) :
  NoDup (s ++ a) → fold_left Set_add a s = s ++ a.
Proof.
revert s. induction a as [| x a IH]; intros s Hnd; simpl.
- by rewrite app_nil_r.
- assert (x ∉ s) as Hx.
  { apply NoDup_app in Hnd as (_ & Hdisj & _). intros Hin.
    apply (Hdisj x Hin), list_elem_of_here. }
  unfold Set_add at 2. rewrite decide_False by done.
  rewrite IH; [by rewrite <- app_assoc |]. by rewrite <- app_assoc.
Qed.

Lemma fold_Set_add_prefix (a s : list Z) :
  ∃ more, fold_left Set_add a s = s ++ more.
Proof.
revert s. induction a as [| x a IH]; intros s; simpl.
- exists []. by rewrite app_nil_r.
- unfold Set_add at 2. case_decide; [apply IH |].
  destruct (IH (s ++ [x])) as [more ->]. exists (x :: more).
  by rewrite <- app_assoc.
Qed.

(** X4.  [Array.from(new Set(a))] gives back [a] exactly when [a] has no
    repeated element; applied to its own result it changes nothing. *)
Theorem Set_of_array_fixpoint (a : list Z) :
  (Set_of_array a = a ↔ NoDup a) ∧
  Set_of_array (Set_of_array a) = Set_of_array a.
Proof.
assert (∀ l, NoDup l → Set_of_array l = l) as Hfix.
{ intros l Hl. unfold Set_of_array. by rewrite fold_Set_add_fresh. }
split; [split |].
- intros <-. apply fold_Set_add_NoDup, NoDup_nil_2.
- apply Hfix.
- apply Hfix, fold_Set_add_NoDup, NoDup_nil_2.
Qed.

(** X5.  The volume-level list starts with the list of the first slice, in the
    same order, and for a volume of one slice it is that list. *)
Theorem volume_segments_first_slice (segImage : Image)
    (segImages : list Image) :
  (∃ more,
     volume_segments (build_labelmaps2D (segImage :: segImages)) =
     scan_pixels (getPixelData segImage) ++ more) ∧
  volume_segments (build_labelmaps2D [segImage]) =
    scan_pixels (getPixelData segImage).
Proof.
assert (∀ rest,
  volume_segments (labelmap2D_of segImage :: rest) =
  fold_left Set_add (concat (map lm2_segmentsOnLabelmap rest))
    (scan_pixels (getPixelData segImage))) as Hrun.
{ intros rest. unfold volume_segments, Set_of_array. simpl.
  rewrite fold_left_app. f_equal.
  apply fold_Set_add_fresh, scan_pixels_NoDup. }
split.
- unfold build_labelmaps2D. simpl. rewrite Hrun. apply fold_Set_add_prefix.
- unfold build_labelmaps2D. simpl. by rewrite Hrun.
Qed.

End Scan.

Lemma scan_pixels_permutation_witness :
  [0; 1; 1; 2; 0; 1] ≡ₚ [1; 0; 2; 1; 1; 0] ∧
  scan_pixels [0; 1; 1; 2; 0; 1] ≡ₚ scan_pixels [1; 0; 2; 1; 1; 0].
Proof.
assert ([0; 1; 1; 2; 0; 1] ≡ₚ [1; 0; 2; 1; 1; 0]) as Hperm.
{ apply (Permutation_trans (l' := 1 :: [0; 1; 2; 0; 1])).
  { apply perm_swap. }
  apply perm_skip, perm_skip.
  apply (Permutation_trans (l' := 2 :: [1; 0; 1])).
  { apply perm_swap. }
  apply perm_skip, perm_skip. apply perm_swap. }
split; [exact Hperm |].
apply (scan_pixels_permutation _ _ Hperm).
Defined.

(** ** When generateSegmentation stops before the adapter *)

Section Generation.

Context (env : Env) (segmentationId : string).

Lemma attach_metadata_no_representation
    (entries : list (string * option Segment))
    (m0 : gmap string SegmentMetadata) (key : string) (segment : Segment) :
  (key, Some segment) ∈ entries →
  attach_metadata env segmentationId [] entries m0 =
  Throw (TypeError "viewportId").
Proof.
induction entries as [| [k [seg |]] rest IH]; intros Hin.
- by apply elem_of_nil in Hin.
- done.
- simpl. apply IH. apply elem_of_cons in Hin as [[=] | Hin]; done.
Qed.

Lemma attach_metadata_all_null
    (representations : list Representation)
    (entries : list (string * option Segment))
    (m0 : gmap string SegmentMetadata) :
  (∀ key segment, (key, Some segment) ∉ entries) →
  attach_metadata env segmentationId representations entries m0 = Ok m0.
Proof.
induction entries as [| [k [seg |]] rest IH]; intros Hnull; simpl.
- done.
- exfalso. apply (Hnull k seg), list_elem_of_here.
- apply IH. intros key segment Hin. apply (Hnull key segment).
  by apply list_elem_of_further.
Qed.

Lemma generateSegmentation_stops (options : Options) (w : list Event) :
  (∀ referencedImages labelmap3D,
     build_labelmap3D env segmentationId ≠
     Ok (referencedImages, labelmap3D)) →
  ∃ e, generateSegmentation env segmentationId options w = (Throw e, w).
Proof.
intros Hne. pose proof (generateSegmentation_run env segmentationId options w)
  as Hrun.
destruct (build_labelmap3D env segmentationId) as [[refs lm3] | e].
- by destruct (Hne refs lm3).
- by exists e.
Qed.

(** Up to the metadata pass: with the slices of the label map and their
    referenced images answered by the cache and the segmentation known to
    the service, what is left of lines 122-202 is the metadata pass. *)
Lemma build_labelmap3D_metadata_pass (ids : list string)
    (segImages : list Image) (referencedImages : list (option Image))
    (segmentationInOHIF : OhifSegmentation) :
  labelmap_imageIds env segmentationId = Some ids →
  Forall2 (λ imageId segImage,
             cache_getImage env (Some imageId) = Ok (Some segImage))
    ids segImages →
  Forall2 (λ segImage referenced,
             cache_getImage env (referencedImageId segImage) = Ok referenced)
    segImages referencedImages →
  svc_getSegmentation env segmentationId = Some segmentationInOHIF →
  build_labelmap3D env segmentationId =
  rbind
    (attach_metadata env segmentationId
       (svc_getRepresentationsForSegmentation env segmentationId)
       (segments segmentationInOHIF) ∅)
    (λ metadata,
       Ok (referencedImages,
           {| lm3_segmentsOnLabelmap :=
                volume_segments (build_labelmaps2D segImages);
              lm3_metadata := metadata;
              lm3_labelmaps2D := build_labelmaps2D segImages |})).
Proof.
intros Hids Hcache Hrefs Hsvc.
unfold labelmap_imageIds in Hids. unfold build_labelmap3D.
destruct (cs_getSegmentation env segmentationId) as [[data] |];
  simpl in Hids; [| done].
destruct data as [[labelmap] |]; simpl in Hids; [| done].
destruct labelmap as [[l] |]; simpl in Hids; [| done].
simpl in Hids. subst l. simpl.
rewrite (Forall2_Ok _ _ (Some <$> segImages)).
2: { clear -Hcache. induction Hcache; constructor; auto. }
simpl. rewrite !rmap_deref_Some, rmap_total.
rewrite (Forall2_Ok _ _ _ Hrefs). simpl. by rewrite Hsvc.
Qed.

(** X6.  A segmentation with at least one segment needs a representation.
    With the slices in the cache and the segmentation known to the service
    but no representation, generateSegmentation throws the TypeError of
    reading the viewport id of the missing first representation, before it
    calls the adapter.  A segmentation whose segments are all null needs
    none: generateSegmentation then calls the adapter, with a label map
    whose metadata is empty, and returns what the adapter returns. *)
Theorem generateSegmentation_needs_representation
    (ids : list string) (segImages : list Image)
    (referencedImages : list (option Image))
    (segmentationInOHIF : OhifSegmentation) (options : Options)
    (w : list Event) :
  labelmap_imageIds env segmentationId = Some ids →
  Forall2 (λ imageId segImage,
             cache_getImage env (Some imageId) = Ok (Some segImage))
    ids segImages →
  Forall2 (λ segImage referenced,
             cache_getImage env (referencedImageId segImage) = Ok referenced)
    segImages referencedImages →
  svc_getSegmentation env segmentationId = Some segmentationInOHIF →
  svc_getRepresentationsForSegmentation env segmentationId = [] →
  ((∃ key segment, (key, Some segment) ∈ segments segmentationInOHIF) →
   generateSegmentation env segmentationId options w =
   (Throw (TypeError "viewportId"), w)) ∧
  ((∀ key segment, (key, Some segment) ∉ segments segmentationInOHIF) →
   ∃ labelmap3D,
     lm3_metadata labelmap3D = ∅ ∧
     lm3_labelmaps2D labelmap3D = build_labelmaps2D segImages ∧
     generateSegmentation env segmentationId options w =
     (adapter_generateSegmentation env referencedImages labelmap3D options,
      w ++ [EncodeSegmentation referencedImages labelmap3D options])).
Proof.
intros Hids Hcache Hrefs Hsvc Hreps.
pose proof (build_labelmap3D_metadata_pass ids segImages referencedImages
              segmentationInOHIF Hids Hcache Hrefs Hsvc) as Hbuild.
rewrite Hreps in Hbuild.
pose proof (generateSegmentation_run env segmentationId options w) as Hrun.
split.
- intros (key & segment & Hin).
  rewrite (attach_metadata_no_representation _ _ key segment Hin)
    in Hbuild.
  simpl in Hbuild. by rewrite Hbuild in Hrun.
- intros Hnull. rewrite (attach_metadata_all_null _ _ _ Hnull) in Hbuild.
  simpl in Hbuild. rewrite Hbuild in Hrun.
  eexists. split_and!; [| | exact Hrun]; reflexivity.
Qed.

(** X7.  If the cache has lost the image of one of the image ids of the label
    map, generateSegmentation throws before it calls the adapter. *)
Theorem generateSegmentation_needs_cached_slices
    (ids : list string) (imageId : string) (options : Options)
    (w : list Event) :
  labelmap_imageIds env segmentationId = Some ids →
  imageId ∈ ids →
  cache_getImage env (Some imageId) = Ok None →
  ∃ e, generateSegmentation env segmentationId options w = (Throw e, w).
Proof.
intros Hids Hin Hlost. apply generateSegmentation_stops.
intros refs lm3 Hbuilt.
destruct (build_labelmap3D_inv _ _ _ _ Hbuilt)
  as (cs & rd & lm & ids' & segImages & _
      & Hcs & Hrd & Hlm & Hids' & Hcache & _).
unfold labelmap_imageIds in Hids. rewrite Hcs in Hids. simpl in Hids.
rewrite Hrd in Hids. simpl in Hids. rewrite Hlm in Hids. simpl in Hids.
rewrite Hids' in Hids. injection Hids as ->.
apply list_elem_of_lookup in Hin as [i Hi].
destruct (Forall2_lookup_l _ _ _ _ _ Hcache Hi) as (im & _ & Him).
by rewrite Hlost in Him.
Qed.

(** What downloadSegmentation does once the label map is built. *)
Lemma downloadSegmentation_run (referencedImages : list (option Image))
    (labelmap3D : Labelmap3D) (segmentationInOHIF : OhifSegmentation)
    (w : list Event) :
  build_labelmap3D env segmentationId = Ok (referencedImages, labelmap3D) →
  svc_getSegmentation env segmentationId = Some segmentationInOHIF →
  let encoded := EncodeSegmentation referencedImages labelmap3D no_options in
  let filename := template (label segmentationInOHIF) in
  downloadSegmentation env segmentationId w =
  match adapter_generateSegmentation env referencedImages labelmap3D
          no_options with
  | Ok (Some generated) =>
      match downloadDICOMData_throws env (dataset generated) filename with
      | None =>
          (Ok tt,
           w ++ [encoded; DownloadDICOMData (dataset generated) filename])
      | Some e => (Throw e, w ++ [encoded])
      end
  | Ok None => (Throw (TypeError "dataset"), w ++ [encoded])
  | Throw e => (Throw e, w ++ [encoded])
  end.
Proof.
intros Hbuilt Hsvc encoded filename. subst encoded filename.
pose proof (generateSegmentation_run env segmentationId no_options w)
  as Hrun. rewrite Hbuilt in Hrun.
unfold downloadSegmentation. unfold bind at 1. rewrite Hrun, Hsvc.
destruct (adapter_generateSegmentation env _ _ _) as [[generated |] | e];
  run_monad; try done.
destruct (downloadDICOMData_throws env _ _); simpl; [done |].
by rewrite app_assoc_cons.
Qed.

(** X8.  downloadSegmentation downloads only what the adapter produced: if a
    downloadDICOMData call is in its trace, the action has completed, the
    dataset is the one of the adapter's result for empty options, and the
    file name is the label of the segmentation (the text 'undefined' when
    the segmentation has no label). *)
Theorem downloadSegmentation_downloads_generated
    (ds : option Dataset) (filename : string) (w : list Event) :
  DownloadDICOMData ds filename
    ∈ emitted (downloadSegmentation env segmentationId) w →
  ∃ referencedImages labelmap3D generated segmentationInOHIF,
    build_labelmap3D env segmentationId =
      Ok (referencedImages, labelmap3D) ∧
    adapter_generateSegmentation env referencedImages labelmap3D no_options =
      Ok (Some generated) ∧
    svc_getSegmentation env segmentationId = Some segmentationInOHIF ∧
    ds = dataset generated ∧
    filename = template (label segmentationInOHIF) ∧
    (downloadSegmentation env segmentationId w).1 = Ok tt.
Proof.
intros Hin.
destruct (build_labelmap3D env segmentationId) as [[refs lm3] | e] eqn:Hbuilt.
- destruct (build_labelmap3D_inv _ _ _ _ Hbuilt)
    as (_ & _ & _ & _ & _ & ohif & _ & _ & _ & _ & _ & _ & Hohif & _).
  pose proof (downloadSegmentation_run refs lm3 ohif w Hbuilt Hohif) as Hrun.
  simpl in Hrun.
  destruct (adapter_generateSegmentation env refs lm3 no_options)
    as [[generated |] | e] eqn:Hadapter.
  + destruct (downloadDICOMData_throws env _ _).
    * rewrite (emitted_app _ _ _ _ Hrun) in Hin.
      apply list_elem_of_singleton in Hin. discriminate.
    * rewrite (emitted_app _ _ _ _ Hrun) in Hin.
      rewrite !elem_of_cons, elem_of_nil in Hin.
      destruct Hin as [[=] | [[= -> ->] | []]].
      exists refs, lm3, generated, ohif. rewrite Hrun. by split_and!.
  + rewrite (emitted_app _ _ _ _ Hrun) in Hin.
    apply list_elem_of_singleton in Hin. discriminate.
  + rewrite (emitted_app _ _ _ _ Hrun) in Hin.
    apply list_elem_of_singleton in Hin. discriminate.
- pose proof (generateSegmentation_run env segmentationId no_options w)
    as Hrun. rewrite Hbuilt in Hrun.
  unfold emitted, downloadSegmentation in Hin. unfold bind at 1 in Hin.
  rewrite Hrun in Hin. simpl in Hin. rewrite drop_all in Hin.
  by apply elem_of_nil in Hin.
Qed.

End Generation.

(** ["seg-2"] with its slices in the cache, a segment and no
    representation; ["seg-blank"], which has no segment and no
    representation. *)
Lemma generateSegmentation_needs_representation_witness :
  generateSegmentation Lab.env_no_representation "seg-2" no_options [] =
    (Throw (TypeError "viewportId"), []) ∧
  ∃ labelmap3D,
    lm3_metadata labelmap3D = ∅ ∧
    lm3_labelmaps2D labelmap3D =
      build_labelmaps2D
        [{| getPixelData := [0; 0; 0; 0; 0; 0]; rows := 2; columns := 3;
            referencedImageId := Some "ct:0" |}] ∧
    generateSegmentation Demo.env0 "seg-blank" no_options [] =
    (adapter_generateSegmentation Demo.env0 Demo.built_blank.1 labelmap3D
       no_options,
     [] ++ [EncodeSegmentation Demo.built_blank.1 labelmap3D no_options]).
Proof.
split.
- refine (proj1 (generateSegmentation_needs_representation
                   Lab.env_no_representation "seg-2" ["seg:0"; "seg:1"]
                   [_; _] Demo.built1.1 Demo.seg2 no_options []
                   _ _ _ _ _) _).
  + vm_compute; reflexivity.
  + repeat constructor.
  + repeat constructor.
  + vm_compute; reflexivity.
  + vm_compute; reflexivity.
  + exists "1", Demo.liver. apply list_elem_of_here.
- refine (proj2 (generateSegmentation_needs_representation
                   Demo.env0 "seg-blank" ["blank:0"] [_]
                   Demo.built_blank.1 Demo.seg_blank no_options []
                   _ _ _ _ _) _).
  + vm_compute; reflexivity.
  + repeat constructor.
  + repeat constructor.
  + vm_compute; reflexivity.
  + vm_compute; reflexivity.
  + intros key segment Hin. by apply elem_of_nil in Hin.
Defined.

Lemma generateSegmentation_needs_cached_slices_witness :
  ∃ e, generateSegmentation Demo.env0 "seg-2" no_options [] = (Throw e, []).
Proof.
apply (generateSegmentation_needs_cached_slices Demo.env0 "seg-2"
         ["seg:0"; "seg:9"] "seg:9").
- vm_compute; reflexivity.
- apply list_elem_of_further, list_elem_of_here.
- vm_compute; reflexivity.
Defined.

Lemma downloadSegmentation_downloads_generated_witness :
  ∃ referencedImages labelmap3D generated segmentationInOHIF,
    build_labelmap3D Demo.env0 "seg-1" =
      Ok (referencedImages, labelmap3D) ∧
    adapter_generateSegmentation Demo.env0 referencedImages labelmap3D
      no_options = Ok (Some generated) ∧
    svc_getSegmentation Demo.env0 "seg-1" = Some segmentationInOHIF ∧
    Some {| ds_body := "SEG undefined"; wadoRoot := None |} =
      dataset generated ∧
    "Liver study" = template (label segmentationInOHIF) ∧
    (downloadSegmentation Demo.env0 "seg-1" []).1 = Ok tt.
Proof.
apply (downloadSegmentation_downloads_generated Demo.env0 "seg-1").
vm_compute. apply list_elem_of_further, list_elem_of_here.
Defined.

(** ** More on downloadSegmentationPdf *)

Lemma generateSegmentation_emits (env : Env) (segmentationId : string)
    (options : Options) (w : list Event) :
  ∃ events,
    (generateSegmentation env segmentationId options w).2 = w ++ events ∧
    Forall is_encode_segmentation events ∧
    ∀ referencedImages labelmap3D options',
      EncodeSegmentation referencedImages labelmap3D options' ∈ events →
      options' = options.
Proof.
pose proof (generateSegmentation_run env segmentationId options w) as Hrun.
destruct (build_labelmap3D env segmentationId) as [[refs lm3] | e];
  rewrite Hrun; simpl.
- eexists [_]. split_and!; [done | |].
  + repeat constructor. by eexists _, _, _.
  + intros r l o Hin. apply list_elem_of_singleton in Hin. by injection Hin.
- exists []. rewrite app_nil_r. split_and!; [done | constructor |].
  intros r l o Hin. by apply elem_of_nil in Hin.
Qed.

Section PdfMore.

Context (env : Env) (segmentationId : string) (viewportId : option string).

(** X9.  When the segmentation service knows the segmentation but the
    segmentation state has no label map image ids for it,
    downloadSegmentationPdf throws 'Failed to load segmentation data' in
    place of the original 'Invalid segmentation data', which is only
    logged; the viewport is not looked at. *)
Theorem pdf_export_invalid_segmentation_data
    (segmentationInOHIF : OhifSegmentation) (w : list Event) :
  svc_getSegmentation env segmentationId = Some segmentationInOHIF →
  has_imageIds (cs_getSegmentation env segmentationId) = false →
  downloadSegmentationPdf env segmentationId viewportId w =
  (Throw (Error "Failed to load segmentation data"),
   w ++ [ConsoleError "Error getting segmentation:"
           (Error "Invalid segmentation data");
         ConsoleError "Error generating segmentation PDF:"
           (Error "Failed to load segmentation data")]).
Proof.
intros Hsvc Hcs. unfold downloadSegmentationPdf, pdf_body.
rewrite Hsvc. run_monad. rewrite Hcs. simpl. by rewrite app_assoc_cons.
Qed.

(** X10.  The tolerance of the PDF export covers a generation step that throws,
    not one that returns undefined: then the export throws a TypeError
    when it reads the metadata, after the PDF document was set up, and
    nothing is downloaded. *)
Theorem pdf_export_undefined_generation
    (segmentationInOHIF : OhifSegmentation) (element : string)
    (canvas : Canvas) (w w1 : list Event) :
  svc_getSegmentation env segmentationId = Some segmentationInOHIF →
  has_imageIds (cs_getSegmentation env segmentationId) = true →
  querySelector env (target_selector env viewportId) = Some element →
  html2canvas env element = Ok canvas →
  generateSegmentation env segmentationId no_options w = (Ok None, w1) →
  pdf_create_throws env = None →
  pdf_embedPng_throws env (toDataURL_png canvas) = None →
  downloadSegmentationPdf env segmentationId viewportId w =
  (Throw (TypeError "metadata"),
   w1 ++ [ConsoleError "Error generating segmentation PDF:"
            (TypeError "metadata")]).
Proof.
intros Hsvc Hcs Hel Hcanvas Hgen Hcreate Hembed.
unfold downloadSegmentationPdf, pdf_body. rewrite Hsvc. run_monad.
rewrite Hcs. simpl. fold (target_selector env viewportId).
rewrite Hel, Hcanvas, Hgen, Hcreate. simpl. by rewrite Hembed.
Qed.


End PdfMore.

Lemma pdf_export_invalid_segmentation_data_witness :
  downloadSegmentationPdf Lab.env_no_state "seg-1" None [] =
  (Throw (Error "Failed to load segmentation data"),
   [] ++ [ConsoleError "Error getting segmentation:"
            (Error "Invalid segmentation data");
          ConsoleError "Error generating segmentation PDF:"
            (Error "Failed to load segmentation data")]).
Proof.
apply (pdf_export_invalid_segmentation_data Lab.env_no_state "seg-1" None
         Demo.seg1).
- vm_compute; reflexivity.
- vm_compute; reflexivity.
Defined.

Lemma pdf_export_undefined_generation_witness :
  downloadSegmentationPdf Lab.env_silent_adapter "seg-1" None [] =
  (Throw (TypeError "metadata"),
   (generateSegmentation Lab.env_silent_adapter "seg-1" no_options []).2 ++
   [ConsoleError "Error generating segmentation PDF:"
      (TypeError "metadata")]).
Proof.
apply (pdf_export_undefined_generation Lab.env_silent_adapter "seg-1" None
         Demo.seg1 "element-1" Demo.canvas).
- vm_compute; reflexivity.
- vm_compute; reflexivity.
- vm_compute; reflexivity.
- vm_compute; reflexivity.
- vm_compute; reflexivity.
- vm_compute; reflexivity.
- vm_compute; reflexivity.
Defined.


(** ** More on storeSegmentation *)

Lemma str_or_nonempty (a : option string) (d : string) :
  d ≠ EmptyString → str_or a d ≠ EmptyString.
Proof.
intros Hd. unfold str_or. destruct a as [s |]; [| done]. by case_decide.
Qed.

Section StoreMore.

Context (env : Env) (segmentationId : string).
Context (dataSource : option DataSource).

(** What storeSegmentation adds to the trace when the prompt is answered
    with CREATE_REPORT: the dialog, what generateSegmentation emits if it
    is reached, and a tail that either is one console.debug line or the
    store call followed by the addition to the metadata store. *)
Lemma storeSegmentation_emitted (segmentation : OhifSegmentation)
    (response : PromptResponse) (w : list Event) :
  svc_getSegmentation env segmentationId = Some segmentation →
  createReportDialogPrompt env = Ok response →
  prompt_action response = CREATE_REPORT env →
  ∃ encoded tail,
    emitted (storeSegmentation env segmentationId dataSource) w =
      ShowReportDialog "Store Segmentation" :: encoded ++ tail ∧
    Forall is_encode_segmentation encoded ∧
    (∀ referencedImages labelmap3D options,
       EncodeSegmentation referencedImages labelmap3D options ∈ encoded →
       options = store_options segmentation response) ∧
    ((∃ e, tail = [ConsoleDebug "Error storing segmentation:" e] ∧
           (storeSegmentation env segmentationId dataSource w).1 = Throw e)
     ∨
     (∃ source data report,
        user_selected env dataSource response source ∧
        (generateSegmentation env segmentationId
           (store_options segmentation response)
           (w ++ [ShowReportDialog "Store Segmentation"])).1 =
          Ok (Some data) ∧
        dataset data = Some report ∧
        store_dicom source report = None ∧
        let stored := with_wadoRoot report (config_wadoRoot source) in
        tail = [StoreDicom (source_name source) report;
                AddInstances [stored] true] ∧
        (storeSegmentation env segmentationId dataSource w).1 =
          Ok (Some stored))).
Proof.
intros Hsvc Hprompt Haction. unfold emitted.
rewrite (storeSegmentation_run env segmentationId dataSource segmentation
           response w Hsvc Hprompt Haction). simpl.
destruct (selected_data_source env _ _) as [selected | e0] eqn:Hselected.
2: { exists [], [ConsoleDebug "Error storing segmentation:" e0]. simpl.
     rewrite <- app_assoc, drop_app_length.
     split_and!; [done | constructor | |].
     - intros r l o Hin. by apply elem_of_nil in Hin.
     - left. by exists e0. }
destruct (generateSegmentation_emits env segmentationId
            (store_options segmentation response)
            (w ++ [ShowReportDialog "Store Segmentation"]))
  as (encoded & Hencoded & Hencode & Hoptions).
exists encoded.
assert (∀ (r : result (option Dataset)) tail,
  drop (length w)
    (((w ++ [ShowReportDialog "Store Segmentation"]) ++ encoded) ++ tail) =
  ShowReportDialog "Store Segmentation" :: encoded ++ tail) as Hdrop.
{ intros _ tail. by rewrite <- !app_assoc, drop_app_length. }
destruct (generateSegmentation env segmentationId _ _)
  as [[[[[report |] md] |] | e] w1] eqn:Hgen; simpl in Hencoded; subst w1.
- destruct (store_of selected) as [source | e] eqn:Hstore_of.
  + assert (selected = SourceObject source) as ->
      by (destruct selected; simpl in Hstore_of; congruence).
    destruct (store_dicom source report) as [e |] eqn:Hstore.
    * eexists. split_and!; [by apply (Hdrop (Throw e)) | done | done |].
      left. by exists e.
    * eexists. split_and!; [by apply (Hdrop (Ok None)) | done | done |].
      right. exists source, {| dataset := Some report; metadata := md |},
        report.
      split_and!; try done.
      by apply (taken_user_selected env dataSource).
  + eexists. split_and!; [by apply (Hdrop (Throw e)) | done | done |].
    left. by exists e.
- eexists. split_and!; [by apply (Hdrop (Ok None)) | done | done |].
  left. by eexists.
- eexists. split_and!; [by apply (Hdrop (Ok None)) | done | done |].
  left. by eexists.
- eexists. split_and!; [by apply (Hdrop (Throw e)) | done | done |].
  left. by exists e.
Qed.

(** Without CREATE_REPORT the trace gains the dialog at most. *)
Lemma storeSegmentation_emitted_declined (w : list Event) :
  (∀ segmentation response,
     svc_getSegmentation env segmentationId = Some segmentation →
     createReportDialogPrompt env = Ok response →
     prompt_action response ≠ CREATE_REPORT env) →
  emitted (storeSegmentation env segmentationId dataSource) w = [] ∨
  emitted (storeSegmentation env segmentationId dataSource) w =
    [ShowReportDialog "Store Segmentation"].
Proof.
intros Hdeclined. unfold emitted, storeSegmentation.
destruct (svc_getSegmentation env segmentationId) as [seg |] eqn:Hsvc.
2: { left. simpl. by rewrite drop_all. }
run_monad.
destruct (createReportDialogPrompt env) as [response | e] eqn:Hprompt.
2: { right. simpl. by rewrite drop_app_length. }
rewrite decide_False by by apply (Hdeclined seg response).
right. simpl. by rewrite drop_app_length.
Qed.

(** X12.  storeSegmentation looks the segmentation up before it asks anything:
    for an unknown identifier it throws 'No segmentation found' and no
    dialog is shown.  When the prompt itself fails, its error reaches the
    caller as it is, without the console.debug line of the store step. *)
Theorem store_checks_before_prompting (w : list Event) :
  (svc_getSegmentation env segmentationId = None →
   storeSegmentation env segmentationId dataSource w =
   (Throw (Error "No segmentation found"), w)) ∧
  (∀ segmentation e,
     svc_getSegmentation env segmentationId = Some segmentation →
     createReportDialogPrompt env = Throw e →
     storeSegmentation env segmentationId dataSource w =
     (Throw e, w ++ [ShowReportDialog "Store Segmentation"])).
Proof.
split.
- intros Hsvc. unfold storeSegmentation. by rewrite Hsvc.
- intros segmentation e Hsvc Hprompt. unfold storeSegmentation.
  rewrite Hsvc. run_monad. by rewrite Hprompt.
Qed.

(** X13.  Whenever storeSegmentation calls the adapter, the options carry a
    series description that is a non-empty string: the name typed into the
    prompt, else the label of the segmentation, else 'Research Derived
    Series'. *)
Theorem store_series_description (referencedImages : list (option Image))
    (labelmap3D : Labelmap3D) (options : Options) (w : list Event) :
  EncodeSegmentation referencedImages labelmap3D options
    ∈ emitted (storeSegmentation env segmentationId dataSource) w →
  ∃ segmentation response description,
    svc_getSegmentation env segmentationId = Some segmentation ∧
    createReportDialogPrompt env = Ok response ∧
    SeriesDescription options = Some description ∧
    description ≠ EmptyString ∧
    description =
      match prompt_value response with
      | Some name =>
          if decide (name = EmptyString)
          then str_or (label segmentation) "Research Derived Series"
          else name
      | None => str_or (label segmentation) "Research Derived Series"
      end.
Proof.
intros Hin.
destruct (svc_getSegmentation env segmentationId) as [seg |] eqn:Hsvc.
2: { destruct (storeSegmentation_emitted_declined w) as [Hnil | Hone].
     { intros seg response Hseg. congruence. }
     - rewrite Hnil in Hin. by apply elem_of_nil in Hin.
     - rewrite Hone in Hin. apply list_elem_of_singleton in Hin.
       discriminate. }
destruct (createReportDialogPrompt env) as [response | e] eqn:Hprompt.
2: { destruct (storeSegmentation_emitted_declined w) as [Hnil | Hone].
     { intros seg' response _ Hresponse. congruence. }
     - rewrite Hnil in Hin. by apply elem_of_nil in Hin.
     - rewrite Hone in Hin. apply list_elem_of_singleton in Hin.
       discriminate. }
destruct (decide (prompt_action response = CREATE_REPORT env))
  as [Haction | Haction].
2: { destruct (storeSegmentation_emitted_declined w) as [Hnil | Hone].
     { intros seg' response' _ Hresponse. congruence. }
     - rewrite Hnil in Hin. by apply elem_of_nil in Hin.
     - rewrite Hone in Hin. apply list_elem_of_singleton in Hin.
       discriminate. }
exists seg, response, (str_or (prompt_value response)
  (str_or (label seg) "Research Derived Series")).
split_and!; try done.
2: { apply str_or_nonempty, str_or_nonempty. done. }
destruct (storeSegmentation_emitted seg response w Hsvc Hprompt Haction)
  as (encoded & tail & Hemitted & _ & Hoptions & Htail).
rewrite Hemitted in Hin.
apply elem_of_cons in Hin as [[=] | Hin].
apply elem_of_app in Hin as [Hin | Hin].
- by rewrite (Hoptions _ _ _ Hin).
- destruct Htail as [(e & -> & _) | (src & data & report & _ & _ & _ & _
                                     & Htail)].
  + apply list_elem_of_singleton in Hin. discriminate.
  + destruct Htail as [-> _].
    rewrite !elem_of_cons, elem_of_nil in Hin.
    destruct Hin as [[=] | [[=] | []]].
Qed.

(** X14.  A data source name chosen in the prompt that the extension
    manager does not know is not replaced by the passed or the active data
    source: taking the first element of the undefined answer throws a
    TypeError before anything is generated; the error is logged and
    rethrown, the adapter is not called, and nothing is stored. *)
Theorem store_unconfigured_data_source (segmentation : OhifSegmentation)
    (response : PromptResponse) (name : string) (w : list Event) :
  svc_getSegmentation env segmentationId = Some segmentation →
  createReportDialogPrompt env = Ok response →
  prompt_action response = CREATE_REPORT env →
  prompt_dataSourceName response = Some name →
  name ≠ EmptyString →
  getDataSources env name = None →
  storeSegmentation env segmentationId dataSource w =
  (Throw (TypeError "0"),
   w ++ [ShowReportDialog "Store Segmentation";
         ConsoleDebug "Error storing segmentation:" (TypeError "0")]).
Proof.
intros Hsvc Hprompt Haction Hname Hne Hlookup.
rewrite (storeSegmentation_run env segmentationId dataSource segmentation
           response w Hsvc Hprompt Haction). simpl.
unfold selected_data_source. rewrite Hname.
rewrite decide_False by done. rewrite Hlookup. simpl.
by rewrite app_assoc_cons.
Qed.

(** X15.  The DICOM metadata store only ever receives what was stored
    first: if storeSegmentation adds instances, then the prompt was
    answered, the dataset that generateSegmentation yielded was stored in
    the data source the user selected, and the last two events of the
    action are that store call and the addition of exactly one instance,
    flagged as made in the client: that dataset with wadoRoot set from the
    configuration of that same data source, which is also what the action
    returns.  No other store call or addition precedes them. *)
Theorem store_adds_only_what_it_stored (instances : list Dataset)
    (madeInClient : bool) (w : list Event) :
  AddInstances instances madeInClient
    ∈ emitted (storeSegmentation env segmentationId dataSource) w →
  ∃ segmentation response source data report before,
    svc_getSegmentation env segmentationId = Some segmentation ∧
    createReportDialogPrompt env = Ok response ∧
    user_selected env dataSource response source ∧
    (generateSegmentation env segmentationId
       (store_options segmentation response)
       (w ++ [ShowReportDialog "Store Segmentation"])).1 = Ok (Some data) ∧
    dataset data = Some report ∧
    store_dicom source report = None ∧
    let stored := with_wadoRoot report (config_wadoRoot source) in
    instances = [stored] ∧
    madeInClient = true ∧
    emitted (storeSegmentation env segmentationId dataSource) w =
      before ++ [StoreDicom (source_name source) report;
                 AddInstances [stored] true] ∧
    Forall (λ ev, ¬ is_store_event ev) before ∧
    (storeSegmentation env segmentationId dataSource w).1 =
      Ok (Some stored).
Proof.
intros Hin.
assert (∀ l, emitted (storeSegmentation env segmentationId dataSource) w = []
             ∨ emitted (storeSegmentation env segmentationId dataSource) w =
               [ShowReportDialog "Store Segmentation"] →
             l = emitted (storeSegmentation env segmentationId dataSource) w
             → AddInstances instances madeInClient ∈ l → False)
  as Hdeclined.
{ intros l [Hnil | Hone] -> Hmem.
  - rewrite Hnil in Hmem. by apply elem_of_nil in Hmem.
  - rewrite Hone in Hmem. apply list_elem_of_singleton in Hmem.
    discriminate. }
destruct (svc_getSegmentation env segmentationId) as [seg |] eqn:Hsvc.
2: { destruct (Hdeclined _ (storeSegmentation_emitted_declined w
       ltac:(intros s r Hs; congruence)) eq_refl Hin). }
destruct (createReportDialogPrompt env) as [response | e] eqn:Hprompt.
2: { destruct (Hdeclined _ (storeSegmentation_emitted_declined w
       ltac:(intros s r _ Hr; congruence)) eq_refl Hin). }
destruct (decide (prompt_action response = CREATE_REPORT env))
  as [Haction | Haction].
2: { destruct (Hdeclined _ (storeSegmentation_emitted_declined w
       ltac:(intros s r _ Hr; congruence)) eq_refl Hin). }
destruct (storeSegmentation_emitted seg response w Hsvc Hprompt Haction)
  as (encoded & tail & Hemitted & Hencode & _ & Htail).
rewrite Hemitted in Hin.
apply elem_of_cons in Hin as [[=] | Hin].
apply elem_of_app in Hin as [Hin | Hin].
{ rewrite Forall_forall in Hencode.
  destruct (Hencode _ Hin) as (r & l & o & H). discriminate. }
destruct Htail as [(e & -> & _) | (source & data & report & Hselected & Hgen
                                   & Hreport & Hstore & Htail)].
{ apply list_elem_of_singleton in Hin. discriminate. }
destruct Htail as [-> Hresult].
rewrite !elem_of_cons, elem_of_nil in Hin.
destruct Hin as [[=] | [[= -> ->] | []]].
exists seg, response, source, data, report,
  (ShowReportDialog "Store Segmentation" :: encoded).
split_and!; try done. intros stored. subst stored.
split_and!; try done.
constructor.
- intros [(s & d & H) | (l & b & H)]; discriminate.
- eapply Forall_impl; [exact Hencode |].
  intros ev (r & l & o & ->) [(s & d & H) | (i & b & H)]; discriminate.
Qed.

(** X23.  When no data source is named in the prompt and none is passed,
    the action stores through whatever getActiveDataSource hands back; an
    array of data sources (or nothing) has no store, so the dataset is
    generated first and then a TypeError is logged and rethrown, with no
    store call and no addition to the metadata store. *)
Theorem store_default_source_without_store (segmentation : OhifSegmentation)
    (response : PromptResponse) (generated : GeneratedSegmentation)
    (report : Dataset) (w w1 : list Event) :
  svc_getSegmentation env segmentationId = Some segmentation →
  createReportDialogPrompt env = Ok response →
  prompt_action response = CREATE_REPORT env →
  no_source_named response →
  dataSource = None →
  generateSegmentation env segmentationId
    (store_options segmentation response)
    (w ++ [ShowReportDialog "Store Segmentation"]) =
    (Ok (Some generated), w1) →
  dataset generated = Some report →
  (∀ sources,
     getActiveDataSource env = SourceArray sources →
     storeSegmentation env segmentationId dataSource w =
     (Throw (TypeError "dicom"),
      w1 ++ [ConsoleDebug "Error storing segmentation:"
               (TypeError "dicom")])) ∧
  (getActiveDataSource env = NoSource →
   storeSegmentation env segmentationId dataSource w =
   (Throw (TypeError "store"),
    w1 ++ [ConsoleDebug "Error storing segmentation:"
             (TypeError "store")])).
Proof.
intros Hsvc Hprompt Haction Hnone Hpassed Hgen Hreport.
pose proof (storeSegmentation_run env segmentationId dataSource
              segmentation response w Hsvc Hprompt Haction) as Hrun.
simpl in Hrun. rewrite Hgen, Hpassed in Hrun.
destruct generated as [ds md]. simpl in Hreport. subst ds.
assert (selected_data_source env (prompt_dataSourceName response)
          (getActiveDataSource env) = Ok (getActiveDataSource env))
  as Hselected.
{ unfold selected_data_source.
  destruct Hnone as [-> | ->]; [done |]. by rewrite decide_True. }
rewrite Hselected in Hrun. rewrite Hpassed.
split.
- intros sources Harray. by rewrite Hrun, Harray.
- intros Hnothing. by rewrite Hrun, Hnothing.
Qed.

End StoreMore.

Lemma store_checks_before_prompting_witness :
  storeSegmentation Demo.env0 "seg-404" None [] =
    (Throw (Error "No segmentation found"), []) ∧
  storeSegmentation (Demo.env (Throw (Error "dialog closed")) None) "seg-1"
    None [] =
    (Throw (Error "dialog closed"),
     [] ++ [ShowReportDialog "Store Segmentation"]).
Proof.
split.
- apply (proj1 (store_checks_before_prompting Demo.env0 "seg-404" None [])).
  vm_compute; reflexivity.
- apply (proj2 (store_checks_before_prompting
                  (Demo.env (Throw (Error "dialog closed")) None) "seg-1"
                  None []) Demo.seg1).
  + vm_compute; reflexivity.
  + vm_compute; reflexivity.
Defined.

Lemma store_series_description_witness :
  ∃ segmentation response description,
    svc_getSegmentation Demo.env0 "seg-1" = Some segmentation ∧
    createReportDialogPrompt Demo.env0 = Ok response ∧
    SeriesDescription (store_options Demo.seg1 Demo.create_report) =
      Some description ∧
    description ≠ EmptyString ∧
    description =
      match prompt_value response with
      | Some name =>
          if decide (name = EmptyString)
          then str_or (label segmentation) "Research Derived Series"
          else name
      | None => str_or (label segmentation) "Research Derived Series"
      end.
Proof.
apply (store_series_description Demo.env0 "seg-1" None Demo.built1.1
         Demo.built1.2 (store_options Demo.seg1 Demo.create_report) []).
vm_compute. apply list_elem_of_further, list_elem_of_here.
Defined.

Lemma store_unconfigured_data_source_witness :
  storeSegmentation (Demo.env (Ok Lab.create_report_nowhere) None) "seg-1"
    (Some Demo.pacs) [] =
  (Throw (TypeError "0"),
   [] ++ [ShowReportDialog "Store Segmentation";
          ConsoleDebug "Error storing segmentation:" (TypeError "0")]).
Proof.
apply (store_unconfigured_data_source
         (Demo.env (Ok Lab.create_report_nowhere) None) "seg-1"
         (Some Demo.pacs) Demo.seg1 Lab.create_report_nowhere "nowhere" []).
- vm_compute; reflexivity.
- vm_compute; reflexivity.
- vm_compute; reflexivity.
- vm_compute; reflexivity.
- discriminate.
- vm_compute; reflexivity.
Defined.

(** The user picks ["pacs"] while the read-only archive is passed to the
    action: what is added to the metadata store carries the wadoRoot of
    ["pacs"]. *)
Lemma store_adds_only_what_it_stored_witness :
  ∃ segmentation response source data report before,
    svc_getSegmentation Demo.env0 "seg-1" = Some segmentation ∧
    createReportDialogPrompt Demo.env0 = Ok response ∧
    user_selected Demo.env0 (Some Demo.readonly) response source ∧
    (generateSegmentation Demo.env0 "seg-1"
       (store_options segmentation response)
       ([] ++ [ShowReportDialog "Store Segmentation"])).1 = Ok (Some data) ∧
    dataset data = Some report ∧
    store_dicom source report = None ∧
    let stored := with_wadoRoot report (config_wadoRoot source) in
    [{| ds_body := "SEG Liver SEG";
        wadoRoot := Some "https://pacs.example.org/wado" |}] = [stored] ∧
    true = true ∧
    emitted (storeSegmentation Demo.env0 "seg-1" (Some Demo.readonly)) [] =
      before ++ [StoreDicom (source_name source) report;
                 AddInstances [stored] true] ∧
    Forall (λ ev, ¬ is_store_event ev) before ∧
    (storeSegmentation Demo.env0 "seg-1" (Some Demo.readonly) []).1 =
      Ok (Some stored).
Proof.
apply (store_adds_only_what_it_stored Demo.env0 "seg-1"
         (Some Demo.readonly)).
vm_compute.
apply list_elem_of_further, list_elem_of_further, list_elem_of_further,
  list_elem_of_here.
Defined.

(** The study as the extension manager is: the active data source is an
    array, and the prompt names no data source. *)
Lemma store_default_source_without_store_witness :
  ∃ trace,
    storeSegmentation (Demo.env (Ok Lab.create_report_default) None) "seg-1"
      None [] =
    (Throw (TypeError "dicom"),
     trace ++ [ConsoleDebug "Error storing segmentation:"
                 (TypeError "dicom")]).
Proof.
eexists.
refine (proj1 (store_default_source_without_store
                 (Demo.env (Ok Lab.create_report_default) None) "seg-1"
                 None Demo.seg1 Lab.create_report_default _
                 {| ds_body := "SEG Liver study"; wadoRoot := None |} [] _
                 _ _ _ _ _ _ _) [Demo.pacs] _).
- vm_compute; reflexivity.
- vm_compute; reflexivity.
- vm_compute; reflexivity.
- by left.
- reflexivity.
- vm_compute; reflexivity.
- vm_compute; reflexivity.
- vm_compute; reflexivity.
Defined.

(** ** More on downloadRTSS *)

(** X16.  The only error downloadRTSS ever raises is the one of the RTSS
    adapter, and the browser is sent to a URL only when serialisation, URL
    creation and navigation all went through: then the URL is the one of
    the blob of the structure set the adapter returned. *)
Theorem downloadRTSS_outcomes (env : Env) (segmentationId : string)
    (w : list Event) :
  (∀ e,
     (downloadRTSS env segmentationId w).1 = Throw e ↔
     adapter_generateRTSS env (svc_getSegmentation env segmentationId) =
       Throw e) ∧
  (∀ url,
     LocationAssign url ∈ emitted (downloadRTSS env segmentationId) w ↔
     ∃ rtss,
       adapter_generateRTSS env (svc_getSegmentation env segmentationId) =
         Ok rtss ∧
       url = DicomBlob rtss ∧
       datasetToBlob_throws env rtss = None ∧
       createObjectURL_throws env url = None ∧
       location_assign_throws env url = None).
Proof.
unfold emitted, downloadRTSS. run_monad.
destruct (adapter_generateRTSS env _) as [rtss | e0]; simpl.
- destruct (datasetToBlob_throws env rtss) as [e1 |] eqn:Hblob; simpl.
  { split; [done |]. intros url. rewrite app_assoc_cons, drop_app_length.
    rewrite !elem_of_cons, elem_of_nil. split.
    - intros [[=] | [[=] | []]].
    - intros (rtss' & [= <-] & _ & H & _). congruence. }
  destruct (createObjectURL_throws env _) as [e2 |] eqn:Hurl; simpl.
  { split; [done |]. intros url. rewrite app_assoc_cons, drop_app_length.
    rewrite !elem_of_cons, elem_of_nil. split.
    - intros [[=] | [[=] | []]].
    - intros (rtss' & Hrtss & Hurl' & _ & H & _). injection Hrtss as <-.
      subst url. congruence. }
  destruct (location_assign_throws env _) as [e3 |] eqn:Hnav; simpl.
  { split; [done |]. intros url.
    rewrite !app_assoc_cons, drop_app_length.
    rewrite !elem_of_cons, elem_of_nil. split.
    - intros [[=] | [[=] | [[=] | []]]].
    - intros (rtss' & Hrtss & Hurl' & _ & _ & H). injection Hrtss as <-.
      subst url. congruence. }
  split; [done |]. intros url. rewrite !app_assoc_cons, drop_app_length.
  rewrite !elem_of_cons, elem_of_nil. split.
  + intros [[=] | [[=] | [[= ->] | []]]]. by exists rtss.
  + intros (rtss' & Hrtss & Hurl' & _). injection Hrtss as <-.
    subst url. tauto.
- split.
  + intros e. split; congruence.
  + intros url. rewrite drop_app_length. rewrite list_elem_of_singleton.
    split; [done |]. intros (rtss & [=] & _).
Qed.

Lemma downloadRTSS_outcomes_witness :
  LocationAssign (DicomBlob "RTSS Liver study")
    ∈ emitted (downloadRTSS Demo.env0 "seg-1") [].
Proof.
apply (proj2 (downloadRTSS_outcomes Demo.env0 "seg-1" [])).
exists "RTSS Liver study". split_and!; vm_compute; reflexivity.
Defined.

(** ** More on the tool configuration *)

Lemma for_each_ok {A : Type} (body : A → M unit) (f : A → list Event)
    (xs : list A) (w : list Event) :
  (∀ x w, x ∈ xs → body x w = (Ok tt, w ++ f x)) →
  for_each xs body w = (Ok tt, w ++ concat (map f xs)).
Proof.
revert w. induction xs as [| x xs IH]; intros w Hbody; simpl.
- unfold ret. by rewrite app_nil_r.
- unfold bind. rewrite Hbody by apply list_elem_of_here.
  rewrite IH; [by rewrite app_assoc |].
  intros y w' Hy. apply Hbody. by apply list_elem_of_further.
Qed.

Lemma for_each_throw {A : Type} (body : A → M unit) (f : A → list Event)
    (before : list A) (x : A) (after : list A) (e : JsError)
    (w : list Event) :
  (∀ y w, y ∈ before → body y w = (Ok tt, w ++ f y)) →
  (∀ w, body x w = (Throw e, w)) →
  for_each (before ++ x :: after) body w =
  (Throw e, w ++ concat (map f before)).
Proof.
revert w. induction before as [| y before IH]; intros w Hbefore Hx; simpl.
- unfold bind. rewrite Hx. by rewrite app_nil_r.
- unfold bind. rewrite Hbefore by apply list_elem_of_here.
  rewrite IH; [by rewrite app_assoc | | done].
  intros z w' Hz. apply Hbefore. by apply list_elem_of_further.
Qed.

Lemma length_concat_map {A B C : Type} (f : A → B → C) (xs : list A)
    (ys : list B) :
  length (concat (map (λ x, map (f x) ys) xs)) =
  (length xs * length ys)%nat.
Proof.
induction xs as [| x xs IH]; simpl; [done |].
by rewrite length_app, length_map, IH.
Qed.

Section ToolsMore.

Context (env : Env).

(** X17.  setBrushSize never throws, every call it makes carries Number(value),
    and it makes one call per tool group for an empty toolNames, one per
    tool group and tool name for a non-empty one, and none otherwise. *)
Theorem setBrushSize_calls (value : JsValue)
    (toolNames : Nullable (list string)) (w : list Event) :
  ∃ calls,
    setBrushSize env value toolNames w = (Ok tt, w ++ calls) ∧
    Forall (λ ev, ∃ toolGroupId toolName,
                    ev = SetBrushSizeForToolGroup toolGroupId
                           (Number env value) toolName) calls ∧
    length calls =
      match getToolGroupIds env, toolNames with
      | Some toolGroupIds, Defined [] => length toolGroupIds
      | Some toolGroupIds, Defined names =>
          (length toolGroupIds * length names)%nat
      | _, _ => 0%nat
      end.
Proof.
destruct (getToolGroupIds env) as [ids |] eqn:Hids.
2: { exists []. unfold setBrushSize. rewrite Hids, app_nil_r.
     split_and!; [done | constructor |]. by destruct toolNames. }
destruct toolNames as [| | [| name names]].
- exists []. rewrite app_nil_r. split_and!; [| constructor | done].
  apply setBrushSize_no_names. by left.
- exists []. rewrite app_nil_r. split_and!; [| constructor | done].
  apply setBrushSize_no_names. by right.
- eexists. split_and!; [by apply setBrushSize_all_tools | |].
  + apply Forall_forall. intros ev Hev.
    apply list_elem_of_In, in_map_iff in Hev as (id & <- & _).
    by eexists _, _.
  + by rewrite length_map.
- eexists. split_and!; [by apply setBrushSize_named_tools | |].
  + apply Forall_forall. intros ev Hev.
    apply list_elem_of_In, in_concat in Hev as (l & Hl & Hev).
    apply in_map_iff in Hl as (id & <- & _).
    apply in_map_iff in Hev as (n & <- & _). by eexists _, _.
  + apply (length_concat_map
             (λ id n, SetBrushSizeForToolGroup id (Number env value)
                        (Some n))).
Qed.

Lemma configure_tools_found (range : list float) (toolGroup : string)
    (names : list string) (w : list Event) :
  for_each names
    (λ toolName,
       bind (lift (deref "setToolConfiguration" (Some toolGroup)))
         (λ toolGroup, emit (SetToolConfiguration toolGroup toolName range)))
    w =
  (Ok tt, w ++ map (λ name, SetToolConfiguration toolGroup name range) names).
Proof. apply (for_each_emit (λ name, SetToolConfiguration toolGroup name range)). Qed.

Lemma setThresholdRange_unfold (range : list float)
    (toolNames : Nullable (list string)) (id : string) (ids : list string)
    (w : list Event) :
  getToolGroupIds env = Some (id :: ids) →
  setThresholdRange env range toolNames w =
  for_each (id :: ids)
    (λ toolGroupId,
       for_each (threshold_tool_names toolNames)
         (λ toolName,
            bind (lift (deref "setToolConfiguration"
                          (getToolGroup env toolGroupId)))
              (λ toolGroup,
                 emit (SetToolConfiguration toolGroup toolName range))))
    w.
Proof.
intros Hids. unfold setThresholdRange. rewrite Hids.
by destruct toolNames as [| | names].
Qed.

(** X18.  When every tool group resolves, setThresholdRange sets the range
    on every tool name in every tool group, group by group and in the order
    of the names: on ThresholdCircularBrush, ThresholdSphereBrush,
    ThresholdCircularBrushDynamic and ThresholdSphereBrushDynamic when
    toolNames is left out (four calls per tool group), on the given names
    otherwise, on nothing for [null]. *)
Theorem setThresholdRange_configures_all (range : list float)
    (toolNames : Nullable (list string)) (toolGroupIds : list string)
    (toolGroup : string → string) (w : list Event) :
  getToolGroupIds env = Some toolGroupIds →
  (∀ id, id ∈ toolGroupIds → getToolGroup env id = Some (toolGroup id)) →
  let names :=
    match toolNames with
    | Undefined =>
        [ "ThresholdCircularBrush"; "ThresholdSphereBrush";
          "ThresholdCircularBrushDynamic"; "ThresholdSphereBrushDynamic" ]
    | Null => []
    | Defined given => given
    end in
  let calls :=
    concat
      (map (λ id,
              map (λ name, SetToolConfiguration (toolGroup id) name range)
                names)
         toolGroupIds) in
  setThresholdRange env range toolNames w = (Ok tt, w ++ calls) ∧
  length calls = (length toolGroupIds * length names)%nat ∧
  (toolNames = Undefined → length calls = (4 * length toolGroupIds)%nat).
Proof.
intros Hids Hgroups names calls.
assert (names = threshold_tool_names toolNames) as Hnames
  by by destruct toolNames.
assert (length calls = (length toolGroupIds * length names)%nat) as Hlength.
{ apply (length_concat_map
           (λ id name, SetToolConfiguration (toolGroup id) name range)). }
split_and!.
- subst calls. rewrite Hnames. destruct toolGroupIds as [| id ids].
  { unfold setThresholdRange. rewrite Hids. simpl. by rewrite app_nil_r. }
  rewrite (setThresholdRange_unfold _ _ _ _ _ Hids).
  apply for_each_ok. intros x w' Hx. rewrite (Hgroups x Hx).
  apply configure_tools_found.
- exact Hlength.
- intros ->. rewrite Hlength. subst names. simpl. lia.
Qed.

(** X19.  A tool group that getToolGroup cannot find stops setThresholdRange
    half way: the groups before it have been configured, the groups after
    it have not, and the action throws.  With no tool name to configure
    (an empty array or null) the tool groups are not touched and nothing
    is thrown. *)
Theorem setThresholdRange_partial_failure (range : list float)
    (toolNames : Nullable (list string))
    (before : list string) (lost : string) (after : list string)
    (toolGroup : string → string) (w : list Event) :
  getToolGroupIds env = Some (before ++ lost :: after) →
  (∀ id, id ∈ before → getToolGroup env id = Some (toolGroup id)) →
  getToolGroup env lost = None →
  (threshold_tool_names toolNames ≠ [] →
   setThresholdRange env range toolNames w =
   (Throw (TypeError "setToolConfiguration"),
    w ++ concat
           (map (λ id,
                   map (λ name,
                          SetToolConfiguration (toolGroup id) name range)
                     (threshold_tool_names toolNames))
              before))) ∧
  (threshold_tool_names toolNames = [] →
   setThresholdRange env range toolNames w = (Ok tt, w)).
Proof.
intros Hids Hbefore Hlost.
assert (∃ id ids, before ++ lost :: after = id :: ids) as (id & ids & Heq).
{ destruct before; simpl; eauto. }
rewrite Heq in Hids. rewrite (setThresholdRange_unfold _ _ _ _ _ Hids).
rewrite <- Heq. split.
- intros Hnames. apply for_each_throw.
  + intros y w' Hy. rewrite (Hbefore y Hy). apply configure_tools_found.
  + intros w'. rewrite Hlost.
    destruct (threshold_tool_names toolNames); [done |]. by simpl.
- intros ->. simpl. apply for_each_skip.
Qed.

End ToolsMore.

Lemma setThresholdRange_configures_all_witness :
  setThresholdRange Demo.env0 [100; 400]%float Undefined [] =
  (Ok tt,
   [ SetToolConfiguration "default" "ThresholdCircularBrush"
       [100; 400]%float;
     SetToolConfiguration "default" "ThresholdSphereBrush" [100; 400]%float;
     SetToolConfiguration "default" "ThresholdCircularBrushDynamic"
       [100; 400]%float;
     SetToolConfiguration "default" "ThresholdSphereBrushDynamic"
       [100; 400]%float;
     SetToolConfiguration "mpr" "ThresholdCircularBrush" [100; 400]%float;
     SetToolConfiguration "mpr" "ThresholdSphereBrush" [100; 400]%float;
     SetToolConfiguration "mpr" "ThresholdCircularBrushDynamic"
       [100; 400]%float;
     SetToolConfiguration "mpr" "ThresholdSphereBrushDynamic"
       [100; 400]%float ]).
Proof.
refine (proj1 (setThresholdRange_configures_all Demo.env0 [100; 400]%float
                 Undefined ["default"; "mpr"] (λ id, id) [] _ _)).
- vm_compute; reflexivity.
- intros id _. reflexivity.
Defined.

Lemma setThresholdRange_partial_failure_witness :
  setThresholdRange Lab.env_lost_group [100; 400]%float
    (Defined ["ThresholdCircularBrush"]) [] =
  (Throw (TypeError "setToolConfiguration"),
   [] ++ concat
           (map (λ id,
                   map (λ name,
                          SetToolConfiguration id name [100; 400]%float)
                     (threshold_tool_names
                        (Defined ["ThresholdCircularBrush"])))
              ["default"])).
Proof.
apply (proj1 (setThresholdRange_partial_failure Lab.env_lost_group
                [100; 400]%float (Defined ["ThresholdCircularBrush"])
                ["default"] "lost" ["mpr"] (λ id, id) []
                ltac:(vm_compute; reflexivity)
                ltac:(intros id Hid; apply list_elem_of_singleton in Hid;
                      subst id; vm_compute; reflexivity)
                ltac:(vm_compute; reflexivity))).
discriminate.
Defined.

(** ** The loader *)

Section Loader.

Context (env : LoaderEnv).

(** X20.  An explicit viewport id that is not empty is never replaced by the
    active viewport: when the grid has no such viewport the lookup gives
    undefined, and the loader throws before any service is called, even
    though an active viewport exists.  A missing or empty id falls back to
    the active viewport. *)
Theorem loader_target_viewport (state : GridState)
    (segmentations : list SegmentationInput) :
  (∀ id, id ≠ EmptyString →
     getTargetViewport (Some id) state = viewports state !! id) ∧
  (getTargetViewport None state = getTargetViewport (Some EmptyString) state
   ∧ ∀ active,
       activeViewportId state = Some active →
       getTargetViewport None state = viewports state !! active) ∧
  (∀ id, id ≠ EmptyString →
     viewports (grid_getState env) !! id = None →
     ∃ e,
       loadSegmentationsForViewport env segmentations (Some id) =
       (Throw e, [])).
Proof.
split_and!.
- intros id Hid. unfold getTargetViewport. by rewrite decide_False.
- unfold getTargetViewport. by rewrite decide_True.
- intros active Hactive. unfold getTargetViewport. by rewrite Hactive.
- intros id Hid Hnone. unfold loadSegmentationsForViewport, getTargetViewport.
  rewrite decide_False by done. rewrite Hnone. by eexists.
Qed.

(** Only the first segmentation of the list is loaded: the rest of the
    list has no influence on what the loader does or returns, and an empty
    list makes it throw without calling a service. *)
Theorem loader_first_segmentation_only (segmentation : SegmentationInput)
    (rest : list SegmentationInput) (viewportId : option string) :
  loadSegmentationsForViewport env (segmentation :: rest) viewportId =
    loadSegmentationsForViewport env [segmentation] viewportId ∧
  ∃ e, loadSegmentationsForViewport env [] viewportId = (Throw e, []).
Proof.
split; [done |]. unfold loadSegmentationsForViewport.
destruct (getTargetViewport viewportId (grid_getState env)); by eexists.
Qed.

(** X21.  The three service calls happen in a fixed order and each one only
    after the one before went through: the calls made are an initial part
    of create label map, register segmentation, add representation, all
    three for the first segmentation and the target viewport.  The loader
    returns (the id of the first segmentation) exactly when all three were
    made. *)
Theorem loader_calls_in_order (segmentations : list SegmentationInput)
    (viewportId : option string) (outcome : result string)
    (calls : list LoadEvent) :
  loadSegmentationsForViewport env segmentations viewportId =
    (outcome, calls) →
  calls = [] ∧ (∃ e, outcome = Throw e) ∨
  ∃ viewport segmentation configuration,
    getTargetViewport viewportId (grid_getState env) = Some viewport ∧
    head segmentations = Some segmentation ∧
    config segmentation = Some configuration ∧
    let id := input_segmentationId segmentation in
    let all :=
      [ CreateLabelmapForDisplaySet
          (getDisplaySetByUID env (head (displaySetInstanceUIDs viewport)))
          id (config_segments configuration) (config_label configuration);
        AddOrUpdateSegmentation segmentation;
        AddSegmentationRepresentation (grid_viewportId viewport) id ] in
    (calls = all ∧ outcome = Ok id) ∨
    (∃ n e, (0 < n < 3)%nat ∧ calls = take n all ∧ outcome = Throw e).
Proof.
unfold loadSegmentationsForViewport.
destruct (getTargetViewport viewportId (grid_getState env)) as [vp |];
  [| intros [= <- <-]; left; eauto].
destruct (head segmentations) as [seg |];
  [| intros [= <- <-]; left; eauto].
destruct (config seg) as [cfg |] eqn:Hcfg;
  [| intros [= <- <-]; left; eauto].
destruct (createLabelmapForDisplaySet_throws env _ _ _);
  [intros [= <- <-]; left; eauto |].
intros Hrun. right. exists vp, seg, cfg. split_and!; try done.
destruct (addOrUpdateSegmentation_throws env _).
{ injection Hrun as <- <-. right. exists 1%nat. eexists.
  split_and!; [lia.. | |]; done. }
destruct (addSegmentationRepresentation_throws env _ _).
{ injection Hrun as <- <-. right. exists 2%nat. eexists.
  split_and!; [lia.. | |]; done. }
injection Hrun as <- <-. by left.
Qed.

End Loader.

Lemma loader_target_viewport_witness :
  ∃ e,
    loadSegmentationsForViewport Lab.loader [Lab.input "seg-1"]
      (Some "viewport-7") = (Throw e, []).
Proof.
apply (proj2 (proj2 (loader_target_viewport Lab.loader Lab.grid
                       [Lab.input "seg-1"]))).
- discriminate.
- vm_compute; reflexivity.
Defined.

Lemma loader_calls_in_order_witness :
  let outcome := Ok "seg-1" in
  let calls :=
    [ CreateLabelmapForDisplaySet (Some "CT series") "seg-1"
        (segments Demo.seg1) (Some "Liver study");
      AddOrUpdateSegmentation (Lab.input "seg-1");
      AddSegmentationRepresentation "viewport-1" "seg-1" ] in
  loadSegmentationsForViewport Lab.loader
    [Lab.input "seg-1"; Lab.input "seg-2"] None = (outcome, calls) ∧
  (calls = [] ∧ (∃ e, outcome = Throw e) ∨
   ∃ viewport segmentation configuration,
     getTargetViewport None (grid_getState Lab.loader) = Some viewport ∧
     head [Lab.input "seg-1"; Lab.input "seg-2"] = Some segmentation ∧
     config segmentation = Some configuration ∧
     let id := input_segmentationId segmentation in
     let all :=
       [ CreateLabelmapForDisplaySet
           (getDisplaySetByUID Lab.loader
              (head (displaySetInstanceUIDs viewport)))
           id (config_segments configuration) (config_label configuration);
         AddOrUpdateSegmentation segmentation;
         AddSegmentationRepresentation (grid_viewportId viewport) id ] in
     (calls = all ∧ outcome = Ok id) ∨
     (∃ n e, (0 < n < 3)%nat ∧ calls = take n all ∧ outcome = Throw e)).
Proof.
intros outcome calls. split; [vm_compute; reflexivity |].
apply (loader_calls_in_order Lab.loader
         [Lab.input "seg-1"; Lab.input "seg-2"] None outcome calls).
vm_compute; reflexivity.
Defined.

(** Creating the label map fails: nothing is registered. *)
Example loader_locked_segmentation :
  loadSegmentationsForViewport Lab.loader [Lab.input "seg-locked"] None =
  (Throw (Error "locked"), []).
Proof. vm_compute. reflexivity. Qed.

(** ** The configuration handed to the app *)

Section AppConfig.

Context (window_config : AppConfig) (publicUrl : string).


End AppConfig.

